(** * vllm-poc: platform configuration and the chat completion endpoint

    A shallow embedding of [config.py] (platform detection, the CUDA probe,
    the table of platform records) and of [app.py] (the health and chat
    completion handlers), with the properties the specification states about
    them.

    Conventions.
    - A Python [str] is a list of Unicode code points ([str := list N]).
    - A Python [int] is a [Z]; a Python [float] is a binary64 primitive float.
    - [len] of a list is a [nat], injected into [Z] where it is stored in a
      response.
    - Code that raises returns an [Outcome]; code that reads the outside
      world (the [nvidia-smi] probe, the inference engine) takes the world
      as an explicit argument and returns the new one. *)

From Stdlib Require Import ZArith NArith String Ascii Bool Lia List.
From Stdlib Require Import Floats.PrimFloat.
From Stdlib Require Import DecimalString.
Import ListNotations.

Set Warnings "-inexact-float,-register-all".

(* ===================================================================== *)
(** * Python text *)
(* ===================================================================== *)

Module Text.

(** A Python string: the sequence of its code points. *)
Definition str := list N.

Definition of_ascii (a : ascii) : N := N_of_ascii a.

Fixpoint of_string (s : string) : str :=
  match s with
  | EmptyString => []
  | String a s' => of_ascii a :: of_string s'
  end.

Coercion of_string : string >-> str.

(** [a == b] on strings. *)
Fixpoint eqb (a b : str) : bool :=
  match a, b with
  | [], [] => true
  | x :: a', y :: b' => N.eqb x y && eqb a' b'
  | _, _ => false
  end.

(** [str.isspace] on one code point: the characters CPython's
    [_PyUnicode_IsWhitespace] accepts. *)
Definition isspace (c : N) : bool :=
  ((9 <=? c) && (c <=? 13)            (* \t \n \v \f \r *)
   || (28 <=? c) && (c <=? 32)        (* FS GS RS US and the space *)
   || (c =? 133) || (c =? 160)        (* NEL, no-break space *)
   || (c =? 5760)                     (* U+1680 *)
   || (8192 <=? c) && (c <=? 8202)    (* U+2000 .. U+200A *)
   || (c =? 8232) || (c =? 8233)      (* U+2028, U+2029 *)
   || (c =? 8239) || (c =? 8287)      (* U+202F, U+205F *)
   || (c =? 12288))%N.                (* U+3000 *)

(** [s.split()] with no separator: runs of whitespace separate the words,
    leading and trailing whitespace produces no empty word. [cur] is the
    word being read, most recent character first. *)
Fixpoint split_from (cur : str) (s : str) : list str :=
  match s with
  | [] => match cur with [] => [] | _ => [rev cur] end
  | c :: s' =>
      if isspace c
      then match cur with
           | [] => split_from [] s'
           | _ => rev cur :: split_from [] s'
           end
      else split_from (c :: cur) s'
  end.

Definition split (s : str) : list str := split_from [] s.

(** [s.lstrip()], [s.rstrip()] and [s.strip()] with no argument. *)
Fixpoint lstrip (s : str) : str :=
  match s with
  | c :: s' => if isspace c then lstrip s' else s
  | [] => []
  end.

Definition rstrip (s : str) : str := rev (lstrip (rev s)).

Definition strip (s : str) : str := rstrip (lstrip s).

(** [s.lower()] on the ASCII letters. [platform.system()] and
    [platform.machine()] are ASCII identifiers; outside ASCII no character
    lowers to a letter of the words compared below, so the comparisons of
    [_detect_platform] come out the same. *)
Definition lower_char (c : N) : N :=
  if ((65 <=? c) && (c <=? 90))%N then (c + 32)%N else c.

Definition lower (s : str) : str := map lower_char s.

(** [s.startswith(p)]. *)
Fixpoint startswith (s p : str) : bool :=
  match p, s with
  | [], _ => true
  | x :: p', y :: s' => N.eqb x y && startswith s' p'
  | _ :: _, [] => false
  end.

(** [p in s]: [p] occurs in [s] as a contiguous substring. *)
Fixpoint contains (s p : str) : bool :=
  startswith s p ||
  match s with
  | [] => false
  | _ :: s' => contains s' p
  end.

(** The line feed, written [\n] in the source. *)
Definition LF : str := [10%N].

(** [str(n)] for a non-negative integer. *)
Definition of_N (n : N) : str :=
  of_string (NilEmpty.string_of_uint (N.to_uint n)).

(** [str(n)] for an integer. *)
Definition of_Z (n : Z) : str :=
  if (n <? 0)%Z then of_string "-" ++ of_N (Z.abs_N n) else of_N (Z.to_N n).

(** ** The words of a string, stated without the scanner *)

(** The number of positions at which a word starts: a character that is
    not whitespace and that is first or follows whitespace. *)
Fixpoint word_starts (after_space : bool) (s : str) : nat :=
  match s with
  | [] => 0
  | c :: s' =>
      (if after_space && negb (isspace c) then 1 else 0)
      + word_starts (isspace c) s'
  end.

Definition word_count (s : str) : nat := word_starts true s.

(** [occurs p s]: the proposition behind [contains]. *)
Definition occurs (p s : str) : Prop :=
  exists pre post, s = pre ++ p ++ post.

End Text.

Export Text.

(* ===================================================================== *)
(** * Results of code that may raise *)
(* ===================================================================== *)

(** The exceptions of the two modules, all subclasses of Python's
    [Exception]. [RuntimeError] stands for whatever [Exception] a
    collaborator raises (the engine, the operating system); it carries its
    [str()]. *)
Inductive Exception : Type :=
| RuntimeError (message : str)
| IndexError (message : str)
| KeyError (key : str)
| HTTPException (status_code : Z) (detail : str).

(** [str(e)]. Starlette prints an [HTTPException] as its status code, a
    colon and its detail. *)
Definition str_of_exception (e : Exception) : str :=
  match e with
  | RuntimeError m => m
  | IndexError m => m
  | KeyError k => of_string "'" ++ k ++ of_string "'"
  | HTTPException c d => of_N (Z.to_N c) ++ of_string ": " ++ d
  end.

Inductive Outcome (A : Type) : Type :=
| Return (a : A)
| Raise (e : Exception).

Arguments Return {A} a.
Arguments Raise {A} e.

(** Sequencing of code that may raise: the first exception ends the run. *)
Definition and_then {A B : Type} (x : Outcome A) (k : A -> Outcome B)
  : Outcome B :=
  match x with
  | Return a => k a
  | Raise e => Raise e
  end.

Notation "'let!' x ':=' c 'in' k" := (and_then c (fun x => k))
  (at level 10, x name, c at level 100, k at level 200).

(* ===================================================================== *)
(** * Python dicts with string keys *)
(* ===================================================================== *)

(** A dict display with string keys, in the order it is written. *)
Definition dict (V : Type) : Type := list (str * V).

(** [d.get(key)]. *)
Fixpoint dict_lookup {V : Type} (d : dict V) (key : str) : option V :=
  match d with
  | [] => None
  | (k, v) :: d' => if eqb k key then Some v else dict_lookup d' key
  end.

(** [d[key]] *)
Definition getitem {V : Type} (d : dict V) (key : str) : Outcome V :=
  match dict_lookup d key with
  | Some v => Return v
  | None => Raise (KeyError key)
  end.

(** [d.get(key, default)] *)
Definition get {V : Type} (d : dict V) (key : str) (default : V) : V :=
  match dict_lookup d key with
  | Some v => v
  | None => default
  end.

(** [d[key] = v]: the value of a key already there is replaced where it
    stands, a new key goes to the end. *)
Fixpoint setitem {V : Type} (d : dict V) (key : str) (v : V) : dict V :=
  match d with
  | [] => [(key, v)]
  | (k, w) :: d' =>
      if eqb k key then (k, v) :: d' else (k, w) :: setitem d' key v
  end.

(** [d.update(other)]: the items of [other] are set one by one, in order. *)
Definition update {V : Type} (d other : dict V) : dict V :=
  fold_left (fun acc item => setitem acc (fst item) (snd item)) other d.

(** [list(d.keys())]. *)
Definition keys {V : Type} (d : dict V) : list str := map fst d.

(* ===================================================================== *)
(** * config.py *)
(* ===================================================================== *)

Module Config.

Local Open Scope string_scope.

Record PlatformConfig : Type := {
  name : str;
  supports_cuda : bool;
  supports_mps : bool;
  vllm_backend : str;
  installation_method : str;
  requirements_file : str;
  docker_base_image : str;
  additional_setup : list str
}.

(** What one [subprocess.run(["nvidia-smi"], capture_output=True,
    text=True, timeout=10)] does: the command runs and exits with a code,
    or it is killed after the ten seconds, or the executable is not found,
    or it cannot be started for another reason ([PermissionError], exec
    format error: an [OSError] other than [FileNotFoundError]). *)
Inductive RunResult : Type :=
| CompletedProcess (returncode : Z)
| TimeoutExpired
| FileNotFoundError
| OSError (message : str).

(** The machine the process runs on. [nvidia_smi i] is what the [i]-th
    launch of the command by this process does, counting from 0. *)
Record Host : Type := {
  system : str;                      (* platform.system() *)
  machine : str;                     (* platform.machine() *)
  nvidia_smi : nat -> RunResult
}.

(** Code that may launch the probe: it is run from the number of launches
    made so far and returns the new number with its outcome. *)
Definition Proc (A : Type) : Type := nat -> Outcome A * nat.

Definition pure {A : Type} (a : A) : Proc A := fun launched => (Return a, launched).

Definition bind {A B : Type} (c : Proc A) (k : A -> Proc B) : Proc B :=
  fun launched =>
    match c launched with
    | (Return a, launched') => k a launched'
    | (Raise e, launched') => (Raise e, launched')
    end.

Definition lift {A : Type} (x : Outcome A) : Proc A := fun launched => (x, launched).

Notation "x <- c ;; k" := (bind c (fun x => k))
  (at level 61, c at next level, right associativity).

(** ** ConfigManager *)

Definition _detect_platform (h : Host) : str :=
  let system := lower (system h) in
  let machine := lower (machine h) in
  if eqb system "darwin" then
    if contains machine "arm" || contains machine "aarch64"
    then of_string "macos_apple_silicon"
    else of_string "macos_intel"
  else if eqb system "linux" then of_string "linux"
  else if eqb system "windows" then of_string "windows"
  else of_string "unknown".

Definition _has_cuda (h : Host) : Proc bool :=
  fun launched =>
    (match nvidia_smi h launched with
     | CompletedProcess returncode => Return (returncode =? 0)%Z
     | TimeoutExpired | FileNotFoundError => Return false
     | OSError message => Raise (RuntimeError message)
     end,
     S launched).

Definition macos_apple_silicon_config : PlatformConfig := {|
  name := "macOS Apple Silicon";
  supports_cuda := false;
  supports_mps := true;
  vllm_backend := "cpu";
  installation_method := "pip_source";
  requirements_file := "requirements-macos.txt";
  docker_base_image := "python:3.11-slim";
  additional_setup := [ of_string "brew install cmake";
                        of_string "export MACOSX_DEPLOYMENT_TARGET=11.0";
                        of_string "pip install torch torchvision torchaudio" ]
|}.

Definition macos_intel_config : PlatformConfig := {|
  name := "macOS Intel";
  supports_cuda := false;
  supports_mps := false;
  vllm_backend := "cpu";
  installation_method := "pip_source";
  requirements_file := "requirements-macos.txt";
  docker_base_image := "python:3.11-slim";
  additional_setup := [ of_string "brew install cmake";
                        of_string "pip install torch torchvision torchaudio" ]
|}.

(** The Linux entry; [cuda] is the probe's answer read for
    [supports_cuda], [cuda'] the one read for [vllm_backend]. *)
Definition linux_config (cuda cuda' : bool) : PlatformConfig := {|
  name := "Linux";
  supports_cuda := cuda;
  supports_mps := false;
  vllm_backend := if cuda' then of_string "cuda" else of_string "cpu";
  installation_method := "pip";
  requirements_file := "requirements.txt";
  docker_base_image := "nvidia/cuda:12.1-devel-ubuntu22.04";
  additional_setup := []
|}.

Definition windows_config (cuda cuda' : bool) : PlatformConfig := {|
  name := "Windows";
  supports_cuda := cuda;
  supports_mps := false;
  vllm_backend := if cuda' then of_string "cuda" else of_string "cpu";
  installation_method := "pip";
  requirements_file := "requirements-windows.txt";
  docker_base_image := "mcr.microsoft.com/windows/servercore:ltsc2022";
  additional_setup := [ of_string "Install Visual Studio Build Tools";
                        of_string "Install CUDA Toolkit if GPU acceleration needed" ]
|}.

(** [_get_platform_config]: the dict display is evaluated entry by entry,
    so the four [self._has_cuda()] calls of the Linux and Windows entries
    run on every platform, in the order written, before the lookup. *)
Definition _get_platform_config (h : Host) (platform : str)
  : Proc PlatformConfig :=
  linux_cuda <- _has_cuda h ;;
  linux_backend_cuda <- _has_cuda h ;;
  windows_cuda <- _has_cuda h ;;
  windows_backend_cuda <- _has_cuda h ;;
  let configs : dict PlatformConfig :=
    [ (of_string "macos_apple_silicon", macos_apple_silicon_config);
      (of_string "macos_intel", macos_intel_config);
      (of_string "linux", linux_config linux_cuda linux_backend_cuda);
      (of_string "windows", windows_config windows_cuda windows_backend_cuda) ] in
  default <- lift (getitem configs "linux") ;;
  pure (get configs platform default).

(** The fields of a [ConfigManager] that the probe and the platform decide.
    [env_vars], read from the environment after them, launches no probe
    and is left to the module that uses it. *)
Record ConfigManager : Type := {
  platform : str;
  config : PlatformConfig
}.

(** [ConfigManager.__init__]. *)
Definition __init__ (h : Host) : Proc ConfigManager :=
  let platform := _detect_platform h in
  config <- _get_platform_config h platform ;;
  pure {| platform := platform; config := config |}.

(** The module runs [config = ConfigManager()] once when it is imported,
    in a process that has launched no probe yet; [get_config()] returns
    that object. *)
Definition import_config (h : Host) : Outcome ConfigManager * nat :=
  __init__ h 0.

(** ** The selector as a table *)

Inductive PlatformTag : Type :=
| MacosAppleSilicon | MacosIntel | Linux | Windows.

(** The record of a tag when every probe answers [cuda]. *)
Definition record_of (t : PlatformTag) (cuda : bool) : PlatformConfig :=
  match t with
  | MacosAppleSilicon => macos_apple_silicon_config
  | MacosIntel => macos_intel_config
  | Linux => linux_config cuda cuda
  | Windows => windows_config cuda cuda
  end.

(** The tag of an operating system name and an architecture string;
    any other system is served as Linux. *)
Definition tag_of (system machine : str) : PlatformTag :=
  if eqb (lower system) "darwin" then
    if contains (lower machine) "arm" || contains (lower machine) "aarch64"
    then MacosAppleSilicon else MacosIntel
  else if eqb (lower system) "windows" then Windows
  else Linux.

Definition select (system machine : str) (cuda : bool) : PlatformConfig :=
  record_of (tag_of system machine) cuda.

(** What a probe answers when it does not raise. *)
Definition probe_answer (r : RunResult) : option bool :=
  match r with
  | CompletedProcess returncode => Some (returncode =? 0)%Z
  | TimeoutExpired | FileNotFoundError => Some false
  | OSError _ => None
  end.

(** ** The environment, the engine arguments and the advice *)

(** The values the dicts of this module hold. *)
Inductive value : Type :=
| VStr (s : str)
| VInt (n : Z)
| VBool (b : bool)
| VFloat (x : float).

(** [self.env_vars], by key. *)
Record EnvVars : Type := {
  MODEL_NAME : str;
  HOST : str;
  PORT : Z;
  MAX_MODEL_LEN : Z;
  GPU_MEMORY_UTILIZATION : float;
  TENSOR_PARALLEL_SIZE : Z;
  TRUST_REMOTE_CODE : bool;
  ENFORCE_EAGER : bool;
  DISABLE_CUSTOM_ALL_REDUCE : bool
}.

Definition _get_default_model (cm : ConfigManager) : str :=
  if supports_cuda (config cm)
  then of_string "microsoft/DialoGPT-medium"
  else of_string "microsoft/DialoGPT-small".

(** [os.getenv(name, default)] in the environment [environ]. *)
Definition getenv (environ : str -> option str) (name default : str) : str :=
  match environ name with
  | Some v => v
  | None => default
  end.

Section Environment.

(** Python's [int(s)] and [float(s)] on a string: a number, or the
    [ValueError] they raise. *)
Variable int : str -> Outcome Z.
Variable float_ : str -> Outcome float.

(** [_load_environment_variables]: the entries are evaluated in the order
    the dict display lists them; the first conversion that raises ends
    it. *)
Definition _load_environment_variables (cm : ConfigManager)
  (environ : str -> option str) : Outcome EnvVars :=
  let model_name := getenv environ "MODEL_NAME" (_get_default_model cm) in
  let host := getenv environ "HOST" "0.0.0.0" in
  let! port := int (getenv environ "PORT" "8000") in
  let! max_model_len := int (getenv environ "MAX_MODEL_LEN" "2048") in
  let! gpu_memory_utilization :=
    float_ (getenv environ "GPU_MEMORY_UTILIZATION" "0.9") in
  let! tensor_parallel_size :=
    int (getenv environ "TENSOR_PARALLEL_SIZE" "1") in
  Return
    {| MODEL_NAME := model_name;
       HOST := host;
       PORT := port;
       MAX_MODEL_LEN := max_model_len;
       GPU_MEMORY_UTILIZATION := gpu_memory_utilization;
       TENSOR_PARALLEL_SIZE := tensor_parallel_size;
       TRUST_REMOTE_CODE :=
         eqb (lower (getenv environ "TRUST_REMOTE_CODE" "true")) "true";
       ENFORCE_EAGER :=
         eqb (lower (getenv environ "ENFORCE_EAGER" "false")) "true";
       DISABLE_CUSTOM_ALL_REDUCE :=
         eqb (lower (getenv environ "DISABLE_CUSTOM_ALL_REDUCE" "false"))
             "true" |}.

End Environment.

(** [get_vllm_args], on the manager and its [env_vars]. *)
Definition get_vllm_args (cm : ConfigManager) (env_vars : EnvVars)
  : dict value :=
  let base_args : dict value :=
    [ (of_string "model", VStr (MODEL_NAME env_vars));
      (of_string "tensor_parallel_size", VInt (TENSOR_PARALLEL_SIZE env_vars));
      (of_string "max_model_len", VInt (MAX_MODEL_LEN env_vars));
      (of_string "trust_remote_code", VBool (TRUST_REMOTE_CODE env_vars)) ] in
  let base_args :=
    if supports_cuda (config cm)
    then update base_args
           [ (of_string "gpu_memory_utilization",
              VFloat (GPU_MEMORY_UTILIZATION env_vars));
             (of_string "dtype", VStr "auto") ]
    else update base_args
           [ (of_string "enforce_eager", VBool true);
             (of_string "disable_custom_all_reduce", VBool true) ] in
  if startswith (platform cm) "macos"
  then update base_args
         [ (of_string "enforce_eager", VBool true);
           (of_string "disable_custom_all_reduce", VBool true);
           (of_string "max_num_seqs", VInt 16) ]
  else base_args.

Definition macos_installation : str := "
# macOS Installation (Apple Silicon/Intel)
pip install --upgrade pip
pip install torch torchvision torchaudio
pip install vllm --no-build-isolation
# If above fails, try: pip install vllm --no-deps
".

Definition linux_cuda_installation : str := "
# Linux with CUDA Installation
pip install --upgrade pip
pip install torch torchvision torchaudio --index-url https://download.pytorch.org/whl/cu121
pip install vllm
".

Definition cpu_only_installation : str := "
# CPU-only Installation
pip install --upgrade pip
pip install torch torchvision torchaudio --index-url https://download.pytorch.org/whl/cpu
pip install vllm
".

Definition get_installation_command (cm : ConfigManager) : str :=
  if startswith (platform cm) "macos" then macos_installation
  else if eqb (platform cm) "linux" && supports_cuda (config cm)
  then linux_cuda_installation
  else cpu_only_installation.

(** What [import torch] gives when it succeeds: the answer of
    [torch.cuda.is_available()], and the answer of
    [torch.backends.mps.is_available()] when [torch.backends] has an
    [mps]. *)
Record Torch : Type := {
  cuda_is_available : bool;
  mps_is_available : option bool
}.

(** The interpreter [validate_environment] runs in: [torch] is [None]
    when [import torch] raises [ImportError]. *)
Record Python : Type := {
  version : str;                     (* sys.version *)
  torch : option Torch;
  vllm_importable : bool
}.

(** The dict [validate_environment] returns, by key. *)
Record Validation : Type := {
  validation_platform : str;         (* "platform" *)
  python_version : str;
  torch_available : bool;
  cuda_available : bool;
  mps_available : bool;
  vllm_available : bool;
  recommendations : list str
}.

Definition validate_environment (cm : ConfigManager) (py : Python)
  : Validation :=
  let validation :=
    {| validation_platform := platform cm;
       python_version := version py;
       torch_available := false;
       cuda_available := false;
       mps_available := false;
       vllm_available := false;
       recommendations := [] |} in
  let validation :=
    match torch py with
    | Some t =>
        {| validation_platform := validation_platform validation;
           python_version := python_version validation;
           torch_available := true;
           cuda_available := cuda_is_available t;
           mps_available :=
             match mps_is_available t with
             | Some available => available
             | None => mps_available validation
             end;
           vllm_available := vllm_available validation;
           recommendations := recommendations validation |}
    | None =>
        {| validation_platform := validation_platform validation;
           python_version := python_version validation;
           torch_available := torch_available validation;
           cuda_available := cuda_available validation;
           mps_available := mps_available validation;
           vllm_available := vllm_available validation;
           recommendations :=
             (recommendations validation ++ [of_string "Install PyTorch"])%list |}
    end in
  let validation :=
    if vllm_importable py
    then {| validation_platform := validation_platform validation;
            python_version := python_version validation;
            torch_available := torch_available validation;
            cuda_available := cuda_available validation;
            mps_available := mps_available validation;
            vllm_available := true;
            recommendations := recommendations validation |}
    else {| validation_platform := validation_platform validation;
            python_version := python_version validation;
            torch_available := torch_available validation;
            cuda_available := cuda_available validation;
            mps_available := mps_available validation;
            vllm_available := vllm_available validation;
            recommendations :=
              (recommendations validation ++ [of_string "Install vLLM"])%list |} in
  let recommend (add : bool) (text : str) (v : Validation) : Validation :=
    if add
    then {| validation_platform := validation_platform v;
            python_version := python_version v;
            torch_available := torch_available v;
            cuda_available := cuda_available v;
            mps_available := mps_available v;
            vllm_available := vllm_available v;
            recommendations := (recommendations v ++ [text])%list |}
    else v in
  let validation :=
    recommend (startswith (platform cm) "macos"
               && negb (torch_available validation))
              "Install PyTorch for macOS" validation in
  recommend (supports_cuda (config cm) && negb (cuda_available validation))
            "CUDA detected but PyTorch CUDA not available" validation.

(** ** Sample hosts *)

(** The probe's answer at launch [i], [false] where it raises. *)
Definition answer (h : Host) (i : nat) : bool :=
  match probe_answer (nvidia_smi h i) with
  | Some b => b
  | None => false
  end.

(** Whether the record of the built manager supports CUDA: never on a
    Mac; by the third launch on Windows; by the first launch on Linux and
    on any other system. *)
Definition built_cuda (h : Host) (launched : nat) : bool :=
  if eqb (lower (system h)) "darwin" then false
  else if eqb (lower (system h)) "windows" then answer h (launched + 2)
  else answer h launched.

(** A Linux machine with a working driver. *)
Definition linux_gpu_host : Host :=
  {| system := "Linux"; machine := "x86_64";
     nvidia_smi := fun _ => CompletedProcess 0 |}.

(** A Linux machine whose [nvidia-smi] is on the path but may not be
    executed by this user. *)
Definition linux_denied_host : Host :=
  {| system := "Linux"; machine := "x86_64";
     nvidia_smi := fun _ => OSError "[Errno 13] Permission denied: 'nvidia-smi'" |}.

(** A system that is none of the three the selector knows. *)
Definition freebsd_host : Host :=
  {| system := "FreeBSD"; machine := "amd64";
     nvidia_smi := fun _ => FileNotFoundError |}.

(** A Mac with Apple Silicon on which the third launch of the command
    cannot be started. *)
Definition mac_flaky_host : Host :=
  {| system := "Darwin"; machine := "arm64";
     nvidia_smi := fun i => if Nat.eqb i 2
                            then OSError "[Errno 8] Exec format error: 'nvidia-smi'"
                            else FileNotFoundError |}.

(** A Linux machine whose driver answers the first launch of the command
    and is gone at the later ones. *)
Definition linux_flaky_host : Host :=
  {| system := "Linux"; machine := "x86_64";
     nvidia_smi := fun i => if Nat.eqb i 0 then CompletedProcess 0
                            else FileNotFoundError |}.

(** A Linux machine without the command. *)
Definition linux_cpu_host : Host :=
  {| system := "Linux"; machine := "x86_64";
     nvidia_smi := fun _ => FileNotFoundError |}.

(** A Windows machine with a working driver. *)
Definition windows_gpu_host : Host :=
  {| system := "Windows"; machine := "AMD64";
     nvidia_smi := fun _ => CompletedProcess 0 |}.

(** The variables of an environment that sets none of them, with the small
    model. *)
Definition default_env_vars : EnvVars :=
  {| MODEL_NAME := "microsoft/DialoGPT-small";
     HOST := "0.0.0.0";
     PORT := 8000;
     MAX_MODEL_LEN := 2048;
     GPU_MEMORY_UTILIZATION := 0.9;
     TENSOR_PARALLEL_SIZE := 1;
     TRUST_REMOTE_CODE := true;
     ENFORCE_EAGER := false;
     DISABLE_CUSTOM_ALL_REDUCE := false |}.

(** The same, after [ENFORCE_EAGER=true], [HOST] and [PORT] were set. *)
Definition eager_env_vars : EnvVars :=
  {| MODEL_NAME := "microsoft/DialoGPT-small";
     HOST := "127.0.0.1";
     PORT := 9000;
     MAX_MODEL_LEN := 2048;
     GPU_MEMORY_UTILIZATION := 0.9;
     TENSOR_PARALLEL_SIZE := 1;
     TRUST_REMOTE_CODE := true;
     ENFORCE_EAGER := true;
     DISABLE_CUSTOM_ALL_REDUCE := true |}.

(** An interpreter with neither PyTorch nor vLLM. *)
Definition bare_python : Python :=
  {| version := "3.11.4"; torch := None; vllm_importable := false |}.

(** Stand-ins for [int] and [float] that know the strings of the defaults
    only: enough to run the loader in an environment that sets none of the
    numeric variables. *)
Definition sample_int (s : str) : Outcome Z :=
  if eqb s "8000" then Return 8000%Z
  else if eqb s "2048" then Return 2048%Z
  else if eqb s "1" then Return 1%Z
  else Raise (RuntimeError "invalid literal for int() with base 10").

Definition sample_float (s : str) : Outcome float :=
  if eqb s "0.9" then Return 0.9%float
  else Raise (RuntimeError "could not convert string to float").

(** The environment that sets nothing. *)
Definition empty_environ : str -> option str := fun _ => None.

End Config.

(* ===================================================================== *)
(** * The inference engine, as app.py sees it *)
(* ===================================================================== *)

Module vllm.

Record SamplingParams : Type := {
  temperature : float;
  top_p : float;
  max_tokens : Z
}.

Record CompletionOutput : Type := { text : str }.

Record RequestOutput : Type := {
  request_id : str;
  outputs : list CompletionOutput
}.

(** One run of the asynchronous generator that [generate] returns: the
    outputs it yields, in order, and then either its normal end or the
    exception that ends it. A [generate] that raises when called is the
    run that yields nothing and raises. *)
Record AsyncStream : Type := {
  yielded : list RequestOutput;
  raised : option Exception
}.

(** [engine.generate(prompt, sampling_params, request_id)]. *)
Definition AsyncLLMEngine : Type := str -> SamplingParams -> str -> AsyncStream.

End vllm.

(* ===================================================================== *)
(** * app.py *)
(* ===================================================================== *)

Module App.

Import vllm.
Local Open Scope string_scope.
Local Open Scope list_scope.

(** The stand-in engine of demo mode: one output, one candidate. *)
Definition MockEngine : AsyncLLMEngine :=
  fun prompt sampling_params request_id =>
    {| yielded :=
         [ {| request_id := request_id;
              outputs := [ {| text := "Demo response: This is a mock response since vLLM is not available." |} ] |} ];
       raised := None |}.

Record ChatMessage : Type := {
  role : str;
  content : str
}.

Record ChatRequest : Type := {
  messages : list ChatMessage;
  max_tokens : option Z;
  temperature : option float;
  top_p : option float
}.

(** The values pydantic gives to the optional fields a body leaves out. *)
Definition default_max_tokens : option Z := Some 512%Z.
Definition default_temperature : option float := Some 0.7%float.
Definition default_top_p : option float := Some 0.9%float.

(** The dict literals of the response, as records of their keys. *)
Record Message : Type := {
  message_role : str;                (* "role" *)
  message_content : str              (* "content" *)
}.

Record Choice : Type := {
  index : Z;
  message : Message;
  finish_reason : str
}.

Record Usage : Type := {
  prompt_tokens : Z;
  completion_tokens : Z;
  total_tokens : Z
}.

Record ChatResponse : Type := {
  id : str;
  choices : list Choice;
  usage : Usage
}.

Record HealthResponse : Type := {
  status : str;
  model : str;
  gpu_memory_used : option str
}.

(** The module's global variables. *)
Record Globals : Type := {
  llm_engine : option AsyncLLMEngine;
  config_manager : Config.ConfigManager;
  model_name : str;
  VLLM_AVAILABLE : bool
}.

(** One call of [llm_engine.generate], as the engine receives it. *)
Record GenerateCall : Type := {
  call_prompt : str;
  call_sampling_params : SamplingParams;
  call_request_id : str
}.

(** [len(xs)] as a Python int. *)
Definition len {A : Type} (xs : list A) : Z := Z.of_nat (List.length xs).

(** [x or default] on an [Optional[float]]: [None] and the zeros are
    falsy, every other float (NaN too) is truthy. *)
Definition float_or (x : option float) (default : float) : float :=
  match x with
  | Some v => if PrimFloat.eqb v 0%float then default else v
  | None => default
  end.

(** [x or default] on an [Optional[int]]. *)
Definition int_or (x : option Z) (default : Z) : Z :=
  match x with
  | Some v => if (v =? 0)%Z then default else v
  | None => default
  end.

(** ** GET /health *)

Definition health_check (g : Globals) : Outcome HealthResponse :=
  match llm_engine g with
  | None => Raise (HTTPException 503 "Model not loaded")
  | Some _ =>
      let gpu_info :=
        if Config.supports_cuda (Config.config (config_manager g))
        then of_string "CUDA enabled"
        else if Config.supports_mps (Config.config (config_manager g))
        then of_string "MPS (Apple Silicon) enabled"
        else of_string "CPU only" in
      let status := if VLLM_AVAILABLE g then of_string "healthy"
                    else of_string "demo_mode" in
      Return {| status := status;
                model := model_name g;
                gpu_memory_used := Some gpu_info |}
  end.

(** ** POST /v1/chat/completions *)

(** One turn of the loop over [request.messages]. *)
Definition add_message (prompt : str) (message : ChatMessage) : str :=
  if eqb (role message) "user"
  then prompt ++ of_string "User: " ++ content message ++ LF
  else if eqb (role message) "assistant"
  then prompt ++ of_string "Assistant: " ++ content message ++ LF
  else prompt.

Definition build_prompt (request : ChatRequest) : str :=
  fold_left add_message (messages request) [] ++ of_string "Assistant:".

Definition build_sampling_params (request : ChatRequest) : SamplingParams :=
  {| vllm.temperature := float_or (temperature request) 0.7;
     vllm.top_p := float_or (top_p request) 0.9;
     vllm.max_tokens := int_or (max_tokens request) 512 |}.

(** The [async for] loop: [final_output] is rebound at every output; an
    exception of the generator leaves the loop. *)
Definition consume (results : AsyncStream) : Outcome (option RequestOutput) :=
  let final_output :=
    fold_left (fun _ request_output => Some request_output)
              (yielded results) None in
  match raised results with
  | Some e => Raise e
  | None => Return final_output
  end.

(** [xs[0]]. *)
Definition first {A : Type} (xs : list A) : Outcome A :=
  match xs with
  | x :: _ => Return x
  | [] => Raise (IndexError "list index out of range")
  end.

(** The body of the [try]. *)
Definition generate_response (prompt : str) (results : AsyncStream)
  : Outcome ChatResponse :=
  let! final_output := consume results in
  match final_output with
  | None => Raise (HTTPException 500 "No output generated")
  | Some final_output =>
      let! candidate := first (outputs final_output) in
      let generated_text := text candidate in
      Return
        {| id := of_string "chat-" ++ request_id final_output;
           choices :=
             [ {| index := 0;
                  message := {| message_role := "assistant";
                                message_content := strip generated_text |};
                  finish_reason := "stop" |} ];
           usage :=
             {| prompt_tokens := len (split prompt);
                completion_tokens := len (split generated_text);
                total_tokens := len (split prompt) + len (split generated_text) |} |}
  end.

(** The handler: its outcome and the calls it made to the engine. *)
Definition chat_completions (g : Globals) (request : ChatRequest)
  : Outcome ChatResponse * list GenerateCall :=
  match llm_engine g with
  | None => (Raise (HTTPException 503 "Model not loaded"), [])
  | Some engine =>
      let prompt := build_prompt request in
      let sampling_params := build_sampling_params request in
      let results := engine prompt sampling_params (of_string "chat") in
      (match generate_response prompt results with
       | Return response => Return response
       | Raise e =>
           Raise (HTTPException 500
                    (of_string "Generation failed: " ++ str_of_exception e))
       end,
       [ {| call_prompt := prompt;
            call_sampling_params := sampling_params;
            call_request_id := "chat" |} ])
  end.

(** ** The routes, as FastAPI serves them *)

(** A request body, as [json.loads] reads it. *)
Inductive json : Type :=
| JNull
| JBool (b : bool)
| JInt (n : Z)
| JFloat (x : float)
| JString (s : str)
| JArray (items : list json)
| JObject (members : list (str * json)).

(** [obj[key]] after [json.loads]: of a key written twice the last member
    is kept. *)
Definition member (members : list (str * json)) (key : str) : option json :=
  dict_lookup (rev members) key.

(** What the client receives. *)
Inductive Response (A : Type) : Type :=
| Body (status_code : Z) (body : A)
| Detail (status_code : Z) (detail : str)
| ValidationErrors.                  (* 422 and the list of schema errors *)

Arguments Body {A} status_code body.
Arguments Detail {A} status_code detail.
Arguments ValidationErrors {A}.

Definition status_code {A : Type} (r : Response A) : Z :=
  match r with
  | Body c _ => c
  | Detail c _ => c
  | ValidationErrors => 422
  end.

(** A handler's return value is sent with status 200, an [HTTPException]
    with its own status and detail, any other exception as a bare 500. *)
Definition respond {A : Type} (x : Outcome A) : Response A :=
  match x with
  | Return a => Body 200 a
  | Raise (HTTPException c d) => Detail c d
  | Raise _ => Detail 500 "Internal Server Error"
  end.

Fixpoint traverse {A B : Type} (f : A -> option B) (xs : list A)
  : option (list B) :=
  match xs with
  | [] => Some []
  | x :: xs' =>
      match f x, traverse f xs' with
      | Some y, Some ys => Some (y :: ys)
      | _, _ => None
      end
  end.

Section Schema.

(** How pydantic reads a JSON value as a [str], an [int] and a [float]
    field; which numbers and strings it converts depends on its version
    and is left open. *)
Variable validate_str : json -> option str.
Variable validate_int : json -> option Z.
Variable validate_float : json -> option float.

(** [ChatMessage]: an object with the two required fields. *)
Definition validate_ChatMessage (j : json) : option ChatMessage :=
  match j with
  | JObject members =>
      match member members "role", member members "content" with
      | Some r, Some c =>
          match validate_str r, validate_str c with
          | Some r', Some c' => Some {| role := r'; content := c' |}
          | _, _ => None
          end
      | _, _ => None
      end
  | _ => None
  end.

(** An [Optional] field with a default: the default when the key is
    absent, [None] for null, the validated value otherwise. *)
Definition optional_field {A : Type} (validate : json -> option A)
  (default : option A) (members : list (str * json)) (key : str)
  : option (option A) :=
  match member members key with
  | None => Some default
  | Some JNull => Some None
  | Some j => option_map Some (validate j)
  end.

(** [ChatRequest]: [messages] is required and is an array of messages. *)
Definition validate_ChatRequest (body : json) : option ChatRequest :=
  match body with
  | JObject members =>
      match member members "messages" with
      | Some (JArray items) =>
          match traverse validate_ChatMessage items,
                optional_field validate_int default_max_tokens members "max_tokens",
                optional_field validate_float default_temperature members "temperature",
                optional_field validate_float default_top_p members "top_p"
          with
          | Some msgs, Some mt, Some t, Some p =>
              Some {| messages := msgs; max_tokens := mt;
                      temperature := t; top_p := p |}
          | _, _, _, _ => None
          end
      | _ => None
      end
  | _ => None
  end.

(** [POST /v1/chat/completions]: the body is validated against the type of
    the handler's parameter before the handler is called. *)
Definition post_chat_completions (g : Globals) (body : json)
  : Response ChatResponse * list GenerateCall :=
  match validate_ChatRequest body with
  | None => (ValidationErrors, [])
  | Some request =>
      let (outcome, calls) := chat_completions g request in
      (respond outcome, calls)
  end.

End Schema.

(** [GET /health]. *)
Definition get_health (g : Globals) : Response HealthResponse :=
  respond (health_check g).

(** A body whose [messages] is a sequence of role/content objects. *)
Definition is_message_object (j : json) : bool :=
  match j with
  | JObject members =>
      match member members "role", member members "content" with
      | Some _, Some _ => true
      | _, _ => false
      end
  | _ => false
  end.

Definition messages_shaped (body : json) : bool :=
  match body with
  | JObject members =>
      match member members "messages" with
      | Some (JArray items) => forallb is_message_object items
      | _ => false
      end
  | _ => false
  end.

(** The strictest reading of the scalar fields: a JSON string for [str],
    a JSON integer for [int], a JSON number with a fraction for [float]. *)
Definition strict_str (j : json) : option str :=
  match j with JString s => Some s | _ => None end.

Definition strict_int (j : json) : option Z :=
  match j with JInt n => Some n | _ => None end.

Definition strict_float (j : json) : option float :=
  match j with
  | JFloat x => Some x
  | _ => None
  end.

(** ** The response, read from the engine's run *)

(** The text of the first candidate of the last output of a run, when the
    run has an output and that output has a candidate. *)
Definition final_candidate_text (results : AsyncStream) : option str :=
  match rev (yielded results) with
  | final_output :: _ =>
      match outputs final_output with
      | candidate :: _ => Some (text candidate)
      | [] => None
      end
  | [] => None
  end.

(** The transcript line of one message: its content under the prefix of
    its role, for the two roles that have one; nothing for any other
    role. *)
Definition transcript_line (message : ChatMessage) : str :=
  if eqb (role message) "user"
  then of_string "User: " ++ content message ++ LF
  else if eqb (role message) "assistant"
  then of_string "Assistant: " ++ content message ++ LF
  else [].

(** The roles the specification's schema admits. *)
Definition schema_role (r : str) : bool :=
  eqb r "user" || eqb r "assistant" || eqb r "system".

(** The globals with another engine. *)
Definition with_engine (g : Globals) (engine : AsyncLLMEngine) : Globals :=
  {| llm_engine := Some engine;
     config_manager := config_manager g;
     model_name := model_name g;
     VLLM_AVAILABLE := VLLM_AVAILABLE g |}.

(** ** Sample processes and requests *)

(** The server in demo mode on a Linux machine without a GPU. *)
Definition demo_globals : Globals :=
  {| llm_engine := Some MockEngine;
     config_manager :=
       {| Config.platform := "linux";
          Config.config := Config.linux_config false false |};
     model_name := "microsoft/DialoGPT-small";
     VLLM_AVAILABLE := false |}.

(** The same process before the engine is set. *)
Definition starting_globals : Globals :=
  {| llm_engine := None;
     config_manager := config_manager demo_globals;
     model_name := model_name demo_globals;
     VLLM_AVAILABLE := false |}.

(** An engine that yields a partial output, then the whole completion. *)
Definition streaming_engine : AsyncLLMEngine :=
  fun prompt sampling_params request_id =>
    {| yielded :=
         [ {| request_id := request_id; outputs := [ {| text := " Hi" |} ] |};
           {| request_id := request_id;
              outputs := [ {| text := " Hi there! " |} ] |} ];
       raised := None |}.

(** An engine whose generator fails after its first output. *)
Definition failing_engine : AsyncLLMEngine :=
  fun prompt sampling_params request_id =>
    {| yielded :=
         [ {| request_id := request_id; outputs := [ {| text := " Hi" |} ] |} ];
       raised := Some (RuntimeError "CUDA out of memory") |}.

Definition hello_request : ChatRequest :=
  {| messages := [ {| role := "user"; content := "Hello" |} ];
     max_tokens := default_max_tokens;
     temperature := default_temperature;
     top_p := default_top_p |}.

(** What the demo process answers to it. *)
Definition demo_response : ChatResponse :=
  {| id := "chat-chat";
     choices :=
       [ {| index := 0;
            message :=
              {| message_role := "assistant";
                 message_content :=
                   "Demo response: This is a mock response since vLLM is not available." |};
            finish_reason := "stop" |} ];
     usage := {| prompt_tokens := 3; completion_tokens := 12;
                 total_tokens := 15 |} |}.

(** A conversation that opens with a system message. *)
Definition system_message : ChatMessage :=
  {| role := "system"; content := "Be brief" |}.

Definition system_request : ChatRequest :=
  {| messages := [ system_message; {| role := "user"; content := "Hi" |} ];
     max_tokens := default_max_tokens;
     temperature := default_temperature;
     top_p := default_top_p |}.

(** The body of the repository's test of an invalid request. *)
Definition invalid_body : json :=
  JObject [ (of_string "messages", JString "invalid") ].

(** ** lifespan *)

(** The classes of the real library, where it was imported:
    [AsyncEngineArgs] built from the arguments and passed to
    [AsyncLLMEngine.from_engine_args], and [AsyncLLMEngine()] called with
    no argument. *)
Record Library : Type := {
  from_engine_args : dict Config.value -> Outcome AsyncLLMEngine;
  AsyncLLMEngine_ : Outcome AsyncLLMEngine
}.

(** The part of [lifespan] before its [yield]. Where the import of the
    library failed, [AsyncLLMEngine] names the stand-in class; where it
    succeeded, the name is the library's class in the handler of a failed
    initialisation too. *)
Definition lifespan_startup (g : Globals) (env_vars : Config.EnvVars)
  (lib : Library) : Outcome Globals :=
  if VLLM_AVAILABLE g then
    match from_engine_args lib
            (Config.get_vllm_args (config_manager g) env_vars) with
    | Return engine => Return (with_engine g engine)
    | Raise _ =>
        let! engine := AsyncLLMEngine_ lib in
        Return (with_engine g engine)
    end
  else Return (with_engine g MockEngine).

(** The part of [lifespan] after its [yield]. *)
Definition lifespan_cleanup (g : Globals) : Globals :=
  match llm_engine g with
  | Some _ =>
      {| llm_engine := None;
         config_manager := config_manager g;
         model_name := model_name g;
         VLLM_AVAILABLE := VLLM_AVAILABLE g |}
  | None => g
  end.

(** ** The words of the prompt, message by message *)

(** The words a message adds to the prompt: its prefix and the words of
    its content, for the two roles that have a line. *)
Definition line_words (message : ChatMessage) : nat :=
  if eqb (role message) "user" || eqb (role message) "assistant"
  then 1 + word_count (content message)
  else 0.

(** A body that sets nothing but [messages], to one user message. *)
Definition hello_body : json :=
  JObject [ (of_string "messages",
             JArray [ JObject [ (of_string "role", JString "user");
                                (of_string "content", JString "Hello") ] ]) ].

End App.

(* ===================================================================== *)
(** * app_simple.py *)
(* ===================================================================== *)

Module AppSimple.

Import App.
Local Open Scope string_scope.
Local Open Scope list_scope.

(** The loop over [reversed(request.messages)], on the reversed list: the
    content of the first message of role "user", the empty string when
    there is none. *)
Fixpoint first_user_content (reversed : list ChatMessage) : str :=
  match reversed with
  | [] => []
  | message :: rest =>
      if eqb (role message) "user" then content message
      else first_user_content rest
  end.

Definition demo_responses (user_message : str) : list str :=
  [ of_string "Hello! You said: '" ++ user_message
    ++ of_string "'. This is a demo response from the vLLM PoC server.";
    of_string "I received your message: '" ++ user_message
    ++ of_string "'. In a real deployment, this would be processed by vLLM.";
    of_string "Demo mode: Your input was '" ++ user_message
    ++ of_string "'. The actual vLLM would generate a more sophisticated response." ].

(** What [random.choice] draws in a list of three. *)
Inductive Draw : Type := First | Second | Third.

Definition random_choice (draw : Draw) (xs : list str) : str :=
  nth (match draw with First => 0 | Second => 1 | Third => 2 end) xs [].

(** [bool(s)] of a string. *)
Definition truthy (s : str) : bool :=
  match s with [] => false | _ => true end.

(** The handler; [draw] is the draw of [random.choice] and [now] the value
    of [int(time.time())]. *)
Definition chat_completions (request : ChatRequest) (draw : Draw) (now : Z)
  : ChatResponse :=
  let user_message := first_user_content (rev (messages request)) in
  let generated_text := random_choice draw (demo_responses user_message) in
  let request_id := of_string "demo-" ++ of_Z now in
  {| id := request_id;
     choices :=
       [ {| index := 0;
            message := {| message_role := "assistant";
                          message_content := generated_text |};
            finish_reason := "stop" |} ];
     usage :=
       {| prompt_tokens :=
            if truthy user_message then len (split user_message) else 0%Z;
          completion_tokens := len (split generated_text);
          total_tokens :=
            if truthy user_message
            then (len (split user_message) + len (split generated_text))%Z
            else len (split generated_text) |} |}.

End AppSimple.

(* ===================================================================== *)
(** * scripts/setup_platform.py *)
(* ===================================================================== *)

Module SetupPlatform.

Import Config.
Local Open Scope string_scope.
Local Open Scope list_scope.

(** The machine the script runs on: which paths exist, whether
    [sys.platform] is "win32", and the return code of the [i]-th shell
    command the script runs, counting from 0. *)
Record Machine : Type := {
  path_exists : str -> bool;         (* os.path.exists *)
  win32 : bool;
  shell : nat -> str -> Z
}.

(** A step of the script ends normally or through [sys.exit]. *)
Inductive Step (A : Type) : Type :=
| Done (a : A)
| SystemExit (code : Z).

Arguments Done {A} a.
Arguments SystemExit {A} code.

(** A step is run from the list of the shell commands run so far, oldest
    first, and returns the new list. *)
Definition Script (A : Type) : Type := list str -> Step A * list str.

(** [run_command(command, check)]: the return code, or exit 1 when
    [check] is set and the command failed. *)
Definition run_command (m : Machine) (command : str) (check : bool)
  : Script Z :=
  fun ran =>
    let returncode := shell m (length ran) command in
    if check && negb (returncode =? 0)%Z
    then (SystemExit 1, ran ++ [command])
    else (Done returncode, ran ++ [command]).

Definition activate_cmd (m : Machine) : str :=
  if win32 m then of_string "venv\Scripts\activate"
  else of_string "source venv/bin/activate".

(** [install_requirements]. *)
Definition install_requirements (m : Machine) (config_manager : ConfigManager)
  : Script unit :=
  fun ran =>
    let requirements_file := requirements_file (config config_manager) in
    let requirements_file :=
      if negb (path_exists m requirements_file)
      then of_string "requirements-simple.txt"
      else requirements_file in
    let install_cmd :=
      activate_cmd m
      ++ of_string " && pip install --upgrade pip && pip install -r "
      ++ requirements_file in
    match run_command m install_cmd true ran with
    | (Done _, ran) => (Done tt, ran)
    | (SystemExit _, ran) =>
        let basic_cmd :=
          activate_cmd m
          ++ of_string " && pip install fastapi uvicorn pydantic" in
        match run_command m basic_cmd true ran with
        | (SystemExit code, ran) => (SystemExit code, ran)
        | (Done _, ran) =>
            if startswith (platform config_manager) "macos"
            then
              let vllm_cmd :=
                activate_cmd m
                ++ of_string " && pip install vllm --no-build-isolation || pip install vllm --no-deps" in
              match run_command m vllm_cmd false ran with
              | (Done _, ran) => (Done tt, ran)
              | (SystemExit code, ran) => (SystemExit code, ran)
              end
            else (Done tt, ran)
        end
    end.

(** One turn of the loop of [setup_platform_specific]. *)
Definition setup_command (m : Machine) (config_manager : ConfigManager)
  (command : str) : Script unit :=
  fun ran =>
    let run (ran : list str) : Step unit * list str :=
      match run_command m command false ran with
      | (Done _, ran) => (Done tt, ran)
      | (SystemExit code, ran) => (SystemExit code, ran)
      end in
    if startswith command "brew" then
      if startswith (platform config_manager) "macos" then
        match run_command m "which brew" false ran with
        | (Done returncode, ran) =>
            if negb (returncode =? 0)%Z then (Done tt, ran) else run ran
        | (SystemExit code, ran) => (SystemExit code, ran)
        end
      else run ran
    else run ran.

(** The loop over [config.additional_setup]. *)
Fixpoint setup_commands (m : Machine) (config_manager : ConfigManager)
  (commands : list str) : Script unit :=
  fun ran =>
    match commands with
    | [] => (Done tt, ran)
    | command :: rest =>
        match setup_command m config_manager command ran with
        | (Done _, ran) => setup_commands m config_manager rest ran
        | (SystemExit code, ran) => (SystemExit code, ran)
        end
    end.

Definition setup_platform_specific (m : Machine)
  (config_manager : ConfigManager) : Script unit :=
  setup_commands m config_manager
    (additional_setup (config config_manager)).

(** A Mac without Homebrew, where every other command succeeds. *)
Definition mac_without_brew : Machine :=
  {| path_exists := fun _ => true;
     win32 := false;
     shell := fun _ command => if eqb command "which brew" then 1%Z else 0%Z |}.

End SetupPlatform.

(* ===================================================================== *)
(** * Facts about Python text *)
(* ===================================================================== *)

Module TextFacts.

Lemma eqb_refl (a : str) : eqb a a = true.
Proof.
  induction a as [|x a IH]; simpl; [reflexivity|].
  now rewrite N.eqb_refl, IH.
Qed.

Lemma eqb_eq (a b : str) : eqb a b = true <-> a = b.
Proof.
  split; [|intros ->; apply eqb_refl].
  revert b; induction a as [|x a IH]; intros [|y b]; simpl; try discriminate.
  - reflexivity.
  - intros H. apply andb_true_iff in H as [Hx Hab].
    apply N.eqb_eq in Hx. apply IH in Hab. now subst.
Qed.

(** The scanner, from any state: a word being read counts for one, and
    the rest of the string contributes its word starts. *)
Lemma split_from_length (s cur : str) :
  length (split_from cur s)
  = (match cur with [] => 0 | _ => 1 end)
    + word_starts (match cur with [] => true | _ => false end) s.
Proof.
  revert cur; induction s as [|c s IH]; intros cur; simpl.
  - destruct cur; reflexivity.
  - destruct (isspace c) eqn:Hc.
    + destruct cur; simpl; rewrite IH; simpl; lia.
    + rewrite IH. destruct cur; simpl; lia.
Qed.

(** [len(s.split())] is the number of whitespace-separated words of [s]. *)
Lemma split_length (s : str) : length (split s) = word_count s.
Proof. unfold split, word_count. now rewrite split_from_length. Qed.

(** The words of [split_from], read back: the pending word and then the
    characters of [s] that are not whitespace. *)
Lemma split_from_concat (s cur : str) :
  concat (split_from cur s)
  = rev cur ++ filter (fun c => negb (isspace c)) s.
Proof.
  revert cur; induction s as [|c s IH]; intros cur; simpl.
  - destruct cur; simpl; now rewrite ?app_nil_r.
  - destruct (isspace c) eqn:Hc; simpl.
    + destruct cur; simpl; rewrite IH; reflexivity.
    + rewrite IH. simpl. now rewrite <- app_assoc.
Qed.

(** Splitting loses nothing but the whitespace. *)
Lemma split_concat (s : str) :
  concat (split s) = filter (fun c => negb (isspace c)) s.
Proof. unfold split. now rewrite split_from_concat. Qed.

Lemma split_from_words (s cur : str) :
  Forall (fun c => isspace c = false) cur ->
  Forall (fun w => w <> [] /\ Forall (fun c => isspace c = false) w)
         (split_from cur s).
Proof.
  revert cur; induction s as [|c s IH]; intros cur Hcur; simpl.
  - destruct cur as [|x cur]; constructor; [|constructor].
    split.
    + intros H. apply (f_equal (@List.length N)) in H.
      rewrite length_rev in H. discriminate.
    + now apply Forall_rev.
  - destruct (isspace c) eqn:Hc.
    + destruct cur as [|x cur]; [apply IH; constructor|].
      constructor; [|apply IH; constructor].
      split.
      * intros H. apply (f_equal (@List.length N)) in H.
        rewrite length_rev in H. discriminate.
      * now apply Forall_rev.
    + apply IH. now constructor.
Qed.

(** Every word [split] returns is non-empty and free of whitespace. *)
Lemma split_words (s : str) :
  Forall (fun w => w <> [] /\ Forall (fun c => isspace c = false) w) (split s).
Proof. apply split_from_words. constructor. Qed.

Lemma startswith_app (p post : str) : startswith (p ++ post) p = true.
Proof.
  induction p as [|x p IH]; simpl.
  - destruct post; reflexivity.
  - now rewrite N.eqb_refl, IH.
Qed.

(** [contains] finds every occurrence. *)
Lemma occurs_contains (p s : str) : occurs p s -> contains s p = true.
Proof.
  intros (pre & post & ->).
  induction pre as [|x pre IH].
  - simpl app. pose proof (startswith_app p post) as H.
    destruct (p ++ post); cbn [contains]; now rewrite H.
  - simpl. rewrite IH. apply orb_true_r.
Qed.

(** The last element a left-to-right rebinding keeps. *)
Lemma fold_left_last {A : Type} (xs : list A) (x : A) (init : option A) :
  fold_left (fun _ y => Some y) (xs ++ [x]) init = Some x.
Proof. now rewrite fold_left_app. Qed.

End TextFacts.

(* ===================================================================== *)
(** * config.py: the platform selector and the CUDA probe *)
(* ===================================================================== *)

Module ConfigFacts.

Import Config.
Local Open Scope string_scope.
Local Open Scope list_scope.

Lemma _has_cuda_answer (h : Host) (n : nat) (b : bool) :
  probe_answer (nvidia_smi h n) = Some b ->
  _has_cuda h n = (Return b, S n).
Proof.
  unfold _has_cuda, probe_answer.
  destruct (nvidia_smi h n); intros H; inversion H; reflexivity.
Qed.

Lemma _has_cuda_raises (h : Host) (n : nat) (m : str) :
  nvidia_smi h n = OSError m ->
  _has_cuda h n = (Raise (RuntimeError m), S n).
Proof. unfold _has_cuda. now intros ->. Qed.

(** The lookup that ends [_get_platform_config], on the tag
    [_detect_platform] computes. *)
Lemma lookup_detected (h : Host) (a0 a1 a2 a3 : bool) :
  get [ (of_string "macos_apple_silicon", macos_apple_silicon_config);
        (of_string "macos_intel", macos_intel_config);
        (of_string "linux", linux_config a0 a1);
        (of_string "windows", windows_config a2 a3) ]
      (_detect_platform h) (linux_config a0 a1)
  = match tag_of (system h) (machine h) with
    | MacosAppleSilicon => macos_apple_silicon_config
    | MacosIntel => macos_intel_config
    | Linux => linux_config a0 a1
    | Windows => windows_config a2 a3
    end.
Proof.
  unfold _detect_platform, tag_of.
  destruct (eqb (lower (system h)) "darwin").
  - destruct (contains (lower (machine h)) "arm"
              || contains (lower (machine h)) "aarch64"); reflexivity.
  - destruct (eqb (lower (system h)) "linux") eqn:Hl.
    + apply TextFacts.eqb_eq in Hl. rewrite Hl. reflexivity.
    + destruct (eqb (lower (system h)) "windows"); reflexivity.
Qed.

(** Four launches that do not raise build the manager, from the answers
    of these launches. *)
Lemma __init___runs (h : Host) (launched : nat) :
  (forall i, i < 4 -> probe_answer (nvidia_smi h (launched + i)) <> None) ->
  __init__ h launched
  = (Return {| platform := _detect_platform h;
               config :=
                 match tag_of (system h) (machine h) with
                 | MacosAppleSilicon => macos_apple_silicon_config
                 | MacosIntel => macos_intel_config
                 | Linux => linux_config (answer h launched)
                                         (answer h (launched + 1))
                 | Windows => windows_config (answer h (launched + 2))
                                             (answer h (launched + 3))
                 end |},
     launched + 4).
Proof.
  intros H.
  assert (E : forall i, i < 4 ->
            _has_cuda h (launched + i)
            = (Return (answer h (launched + i)), S (launched + i))).
  { intros i Hi. apply _has_cuda_answer. unfold answer.
    specialize (H i Hi).
    destruct (probe_answer (nvidia_smi h (launched + i))); congruence. }
  pose proof (E 0 ltac:(lia)) as E0. rewrite Nat.add_0_r in E0.
  pose proof (E 1 ltac:(lia)) as E1. replace (launched + 1) with (S launched) in * by lia.
  pose proof (E 2 ltac:(lia)) as E2. replace (launched + 2) with (S (S launched)) in * by lia.
  pose proof (E 3 ltac:(lia)) as E3. replace (launched + 3) with (S (S (S launched))) in * by lia.
  unfold __init__, _get_platform_config, bind, lift, pure.
  rewrite E0, E1, E2, E3.
  replace (launched + 4) with (S (S (S (S launched)))) by lia.
  match goal with
  | |- context [getitem ?d ?k] =>
      change (getitem d k)
        with (Return (linux_config (answer h launched) (answer h (S launched))))
  end.
  cbv iota.
  now rewrite lookup_detected.
Qed.

(** When every launch gives the same answer, the manager holds the record
    [select] names. *)
Lemma __init___constant_probe (h : Host) (launched : nat) (cuda : bool) :
  (forall i, probe_answer (nvidia_smi h i) = Some cuda) ->
  __init__ h launched
  = (Return {| platform := _detect_platform h;
               config := select (system h) (machine h) cuda |},
     launched + 4).
Proof.
  intros H. rewrite __init___runs.
  - unfold answer. rewrite !H. unfold select, record_of. reflexivity.
  - intros i _. rewrite H. discriminate.
Qed.

Lemma _detect_platform_ext (h h' : Host) :
  system h' = system h -> machine h' = machine h ->
  _detect_platform h' = _detect_platform h.
Proof. unfold _detect_platform. now intros -> ->. Qed.

(** C4, as stated, fails. The record is not decided by the operating
    system, the architecture and one probe result: the probe is launched
    four times, and the launches may disagree. On the Linux machine whose
    driver answers the first launch only, the manager holds a record with
    CUDA support and the CPU backend, which is none of the four records of
    the table for either probe result; the machine with a working driver
    has the same system, the same architecture and the same first answer
    and gets another record; and where the command cannot be started no
    record is built at all. *)
Lemma probe_launches_may_disagree :
  fst (import_config linux_flaky_host)
  = Return {| platform := "linux"; config := linux_config true false |}
  /\ (forall cuda,
        ~ In (linux_config true false)
             [ macos_apple_silicon_config; macos_intel_config;
               linux_config cuda cuda; windows_config cuda cuda ])
  /\ system linux_gpu_host = system linux_flaky_host
  /\ machine linux_gpu_host = machine linux_flaky_host
  /\ probe_answer (nvidia_smi linux_gpu_host 0)
     = probe_answer (nvidia_smi linux_flaky_host 0)
  /\ fst (import_config linux_gpu_host)
     <> fst (import_config linux_flaky_host)
  /\ (forall cm, fst (import_config linux_denied_host) <> Return cm).
Proof.
  split; [reflexivity|]. split.
  - intros cuda [H|[H|[H|[H|[]]]]].
    + apply (f_equal name) in H. discriminate H.
    + apply (f_equal name) in H. discriminate H.
    + destruct cuda.
      * apply (f_equal vllm_backend) in H. discriminate H.
      * apply (f_equal supports_cuda) in H. discriminate H.
    + apply (f_equal name) in H. discriminate H.
  - repeat split; try reflexivity.
    + intros H. inversion H.
    + intros cm H. discriminate H.
Qed.

(** C4, amended. On a host where every launch of the CUDA probe gives one
    and the same answer, the configuration the manager holds is a function
    of the operating system name, the architecture string and that answer:
    it is the record [select] computes from these three, one of the four
    records of the table (macOS Apple Silicon, macOS Intel, Linux,
    Windows); a host with the same three inputs gets the same manager; and
    a platform detected as unknown gets the Linux record. *)
Theorem platform_selector_is_a_function
  (h : Host) (launched : nat) (cuda : bool) :
  (forall i, probe_answer (nvidia_smi h i) = Some cuda) ->
  fst (__init__ h launched)
  = Return {| platform := _detect_platform h;
              config := select (system h) (machine h) cuda |}
  /\ In (select (system h) (machine h) cuda)
        [ macos_apple_silicon_config; macos_intel_config;
          linux_config cuda cuda; windows_config cuda cuda ]
  /\ (_detect_platform h = of_string "unknown" ->
      select (system h) (machine h) cuda = linux_config cuda cuda)
  /\ (forall (h' : Host) (launched' : nat),
        system h' = system h -> machine h' = machine h ->
        (forall i, probe_answer (nvidia_smi h' i) = Some cuda) ->
        fst (__init__ h' launched') = fst (__init__ h launched)).
Proof.
  intros H. repeat split.
  - now rewrite (__init___constant_probe h launched cuda H).
  - unfold select, record_of.
    destruct (tag_of (system h) (machine h)); simpl; auto.
  - unfold _detect_platform, select, tag_of.
    destruct (eqb (lower (system h)) "darwin").
    + destruct (contains (lower (machine h)) "arm"
                || contains (lower (machine h)) "aarch64"); discriminate.
    + destruct (eqb (lower (system h)) "linux"); [discriminate|].
      destruct (eqb (lower (system h)) "windows"); [discriminate|].
      reflexivity.
  - intros h' launched' Hs Hm H'.
    rewrite (__init___constant_probe h launched cuda H).
    rewrite (__init___constant_probe h' launched' cuda H').
    simpl. now rewrite (_detect_platform_ext h h' Hs Hm), Hs, Hm.
Qed.

(** The selector on a FreeBSD machine without the command: every launch
    answers "unavailable", the platform is unknown and the Linux CPU record
    is selected. *)
Lemma platform_selector_on_freebsd :
  fst (__init__ freebsd_host 0)
  = Return {| platform := _detect_platform freebsd_host;
              config := select (system freebsd_host) (machine freebsd_host) false |}
  /\ In (select (system freebsd_host) (machine freebsd_host) false)
        [ macos_apple_silicon_config; macos_intel_config;
          linux_config false false; windows_config false false ]
  /\ (_detect_platform freebsd_host = of_string "unknown" ->
      select (system freebsd_host) (machine freebsd_host) false
      = linux_config false false)
  /\ (forall (h' : Host) (launched' : nat),
        system h' = system freebsd_host -> machine h' = machine freebsd_host ->
        (forall i, probe_answer (nvidia_smi h' i) = Some false) ->
        fst (__init__ h' launched') = fst (__init__ freebsd_host 0)).
Proof.
  apply (platform_selector_is_a_function freebsd_host 0 false).
  intros i. reflexivity.
Defined.

(** C5, as stated, fails twice. On a Linux machine with a working driver
    importing the module launches the probe four times, not once; and where
    the command cannot be started for a reason other than a missing file
    or a timeout, the failure is not turned into "unavailable": the
    exception leaves [ConfigManager()], after a single launch. *)
Lemma probe_runs_four_times_and_may_raise :
  snd (import_config linux_gpu_host) = 4
  /\ snd (import_config linux_gpu_host) <> 1
  /\ import_config linux_denied_host
     = (Raise (RuntimeError "[Errno 13] Permission denied: 'nvidia-smi'"), 1)
  /\ (forall cm, fst (import_config linux_denied_host) <> Return cm).
Proof.
  repeat split; try reflexivity; discriminate.
Qed.

(** C5, amended. One call of the probe launches the command once. An exit
    code of 0 answers "available"; another exit code, the timeout and a
    missing executable answer "unavailable"; any other failure to start
    the command is raised. Building the manager launches the probe four
    times on every platform when none raises, and the record it stores
    carries the answers of the first two launches (Linux) or of the last
    two (Windows). *)
Theorem cuda_probe_behaviour (h : Host) (launched : nat) :
  (forall i, i < 4 -> probe_answer (nvidia_smi h (launched + i)) <> None) ->
  (forall n, snd (_has_cuda h n) = S n)
  /\ (forall n rc, nvidia_smi h n = CompletedProcess rc ->
        fst (_has_cuda h n) = Return (rc =? 0)%Z)
  /\ (forall n, nvidia_smi h n = TimeoutExpired
                \/ nvidia_smi h n = FileNotFoundError ->
        fst (_has_cuda h n) = Return false)
  /\ (forall n m, nvidia_smi h n = OSError m ->
        fst (_has_cuda h n) = Raise (RuntimeError m))
  /\ __init__ h launched
     = (Return {| platform := _detect_platform h;
                  config :=
                    match tag_of (system h) (machine h) with
                    | MacosAppleSilicon => macos_apple_silicon_config
                    | MacosIntel => macos_intel_config
                    | Linux => linux_config (answer h launched)
                                            (answer h (launched + 1))
                    | Windows => windows_config (answer h (launched + 2))
                                                (answer h (launched + 3))
                    end |},
        launched + 4).
Proof.
  intros H. repeat split.
  - intros n rc E. unfold _has_cuda. now rewrite E.
  - intros n [E|E]; unfold _has_cuda; now rewrite E.
  - intros n m E. unfold _has_cuda. now rewrite E.
  - now apply __init___runs.
Qed.

(** The probe on the Linux machine with a working driver: each call is
    one launch and answers "available"; the import makes four launches and
    stores the CUDA record. *)
Lemma cuda_probe_on_linux_gpu :
  _has_cuda linux_gpu_host 0 = (Return true, 1)
  /\ import_config linux_gpu_host
     = (Return {| platform := "linux"; config := linux_config true true |}, 4).
Proof.
  destruct (cuda_probe_behaviour linux_gpu_host 0) as (H1 & H2 & _ & _ & H5).
  - intros i _. discriminate.
  - split.
    + specialize (H1 0). specialize (H2 0 0%Z eq_refl).
      destruct (_has_cuda linux_gpu_host 0) as [o n].
      simpl in H1, H2. now subst.
    + unfold import_config. rewrite H5. reflexivity.
Defined.

End ConfigFacts.

(* ===================================================================== *)
(** * app.py: the health and chat completion endpoints *)
(* ===================================================================== *)

Module AppFacts.

Import vllm App.
Local Open Scope string_scope.
Local Open Scope list_scope.
Local Open Scope Z_scope.

(** ** The prompt *)

Lemma fold_add_message (msgs : list ChatMessage) (prompt : str) :
  fold_left add_message msgs prompt
  = prompt ++ concat (map transcript_line msgs).
Proof.
  revert prompt; induction msgs as [|m msgs IH]; intros prompt; simpl.
  - now rewrite app_nil_r.
  - rewrite IH. unfold add_message, transcript_line.
    destruct (eqb (role m) "user"); [now rewrite <- !app_assoc|].
    destruct (eqb (role m) "assistant"); [now rewrite <- !app_assoc|].
    reflexivity.
Qed.

Lemma build_prompt_transcript (request : ChatRequest) :
  build_prompt request
  = concat (map transcript_line (messages request)) ++ of_string "Assistant:".
Proof. unfold build_prompt. now rewrite fold_add_message. Qed.

(** With an engine, the handler calls [generate] once, with the prompt
    and the sampling parameters it built and the request id "chat". *)
Lemma calls_made (g : Globals) (engine : AsyncLLMEngine) (request : ChatRequest) :
  llm_engine g = Some engine ->
  snd (chat_completions g request)
  = [ {| call_prompt := build_prompt request;
         call_sampling_params := build_sampling_params request;
         call_request_id := "chat" |} ].
Proof. intros H. unfold chat_completions. now rewrite H. Qed.

(** ** The run of the generator *)

Lemma consume_normal_end (earlier : list RequestOutput) (final : RequestOutput) :
  consume {| yielded := earlier ++ [final]; raised := None |}
  = Return (Some final).
Proof. unfold consume. simpl. now rewrite TextFacts.fold_left_last. Qed.

Lemma consume_raised (results : AsyncStream) (e : Exception) :
  raised results = Some e -> consume results = Raise e.
Proof. unfold consume. now intros ->. Qed.

Lemma generate_response_raised (prompt : str) (results : AsyncStream)
  (e : Exception) :
  raised results = Some e -> generate_response prompt results = Raise e.
Proof.
  intros H. unfold generate_response. now rewrite (consume_raised results e H).
Qed.

(** Only the last output of a run reaches the response. *)
Lemma generate_response_last (prompt : str) (earlier : list RequestOutput)
  (final : RequestOutput) (end_ : option Exception) :
  generate_response prompt {| yielded := earlier ++ [final]; raised := end_ |}
  = generate_response prompt {| yielded := [final]; raised := end_ |}.
Proof.
  unfold generate_response, consume. simpl.
  now rewrite TextFacts.fold_left_last.
Qed.

Lemma final_candidate_text_last (earlier : list RequestOutput)
  (final : RequestOutput) (end_ : option Exception) :
  final_candidate_text {| yielded := earlier ++ [final]; raised := end_ |}
  = match outputs final with
    | candidate :: _ => Some (text candidate)
    | [] => None
    end.
Proof. unfold final_candidate_text. simpl. now rewrite rev_unit. Qed.

(** What a successful call went through: an engine is set, its run ended
    normally after at least one output, the last output has a candidate,
    and the response is built from that candidate. *)
Lemma chat_completions_returns (g : Globals) (request : ChatRequest)
  (response : ChatResponse) :
  fst (chat_completions g request) = Return response ->
  exists engine earlier final candidate rest,
    llm_engine g = Some engine
    /\ engine (build_prompt request) (build_sampling_params request)
              (of_string "chat")
       = {| yielded := earlier ++ [final]; raised := None |}
    /\ outputs final = candidate :: rest
    /\ response
       = {| id := of_string "chat-" ++ request_id final;
            choices :=
              [ {| index := 0;
                   message := {| message_role := "assistant";
                                 message_content := strip (text candidate) |};
                   finish_reason := "stop" |} ];
            usage :=
              {| prompt_tokens := len (split (build_prompt request));
                 completion_tokens := len (split (text candidate));
                 total_tokens := len (split (build_prompt request))
                                 + len (split (text candidate)) |} |}.
Proof.
  unfold chat_completions.
  destruct (llm_engine g) as [engine|]; [|discriminate].
  cbn [fst].
  destruct (engine (build_prompt request) (build_sampling_params request)
                   (of_string "chat")) as [ys end_] eqn:Hrun.
  destruct end_ as [e|].
  - rewrite (generate_response_raised _ _ e) by reflexivity.
    discriminate.
  - destruct ys as [|y ys] using rev_ind.
    + discriminate.
    + clear IHys. unfold generate_response.
      rewrite consume_normal_end. cbn [and_then].
      destruct (outputs y) as [|candidate rest] eqn:Hout; [discriminate|].
      cbn [first and_then]. intros H. inversion H.
      exists engine, ys, y, candidate, rest. now rewrite Hout.
Qed.

(** ** Token counts *)

(** C1. In every successful chat completion, [prompt_tokens] is the number
    of whitespace-separated words of the prompt that was built,
    [completion_tokens] the number of whitespace-separated words of the
    generated text (the first candidate of the engine's last output), and
    [total_tokens] their sum. *)
Theorem usage_counts_words (g : Globals) (request : ChatRequest)
  (response : ChatResponse) :
  fst (chat_completions g request) = Return response ->
  exists engine generated_text,
    llm_engine g = Some engine
    /\ final_candidate_text
         (engine (build_prompt request) (build_sampling_params request)
                 (of_string "chat"))
       = Some generated_text
    /\ prompt_tokens (usage response)
       = Z.of_nat (word_count (build_prompt request))
    /\ completion_tokens (usage response)
       = Z.of_nat (word_count generated_text)
    /\ total_tokens (usage response)
       = prompt_tokens (usage response) + completion_tokens (usage response).
Proof.
  intros H.
  destruct (chat_completions_returns g request response H)
    as (engine & earlier & final & candidate & rest & He & Hrun & Hout & ->).
  exists engine, (text candidate). split; [exact He|]. split.
  - rewrite Hrun, final_candidate_text_last, Hout. reflexivity.
  - cbn [usage prompt_tokens completion_tokens total_tokens].
    unfold len. rewrite !TextFacts.split_length. repeat split.
Qed.

(** The demo process answering "Hello": 3 prompt words, 12 completion
    words, 15 in total. *)
Lemma usage_counts_words_demo :
  exists engine generated_text,
    llm_engine demo_globals = Some engine
    /\ final_candidate_text
         (engine (build_prompt hello_request)
                 (build_sampling_params hello_request) (of_string "chat"))
       = Some generated_text
    /\ prompt_tokens (usage demo_response)
       = Z.of_nat (word_count (build_prompt hello_request))
    /\ completion_tokens (usage demo_response)
       = Z.of_nat (word_count generated_text)
    /\ total_tokens (usage demo_response)
       = prompt_tokens (usage demo_response)
         + completion_tokens (usage demo_response).
Proof.
  apply (usage_counts_words demo_globals hello_request demo_response).
  reflexivity.
Defined.

(** ** The prompt sent to the engine *)

(** C2, as stated, fails. Every role of this request is one the schema
    admits, yet the content of its system message occurs nowhere in the
    prompt the engine receives. *)
Lemma system_message_is_not_in_the_prompt :
  forallb (fun m => schema_role (role m)) (messages system_request) = true
  /\ In system_message (messages system_request)
  /\ map call_prompt (snd (chat_completions demo_globals system_request))
     = [ of_string "User: Hi" ++ LF ++ of_string "Assistant:" ]
  /\ ~ occurs (content system_message)
              (of_string "User: Hi" ++ LF ++ of_string "Assistant:").
Proof.
  split; [reflexivity|]. split; [left; reflexivity|].
  split; [reflexivity|].
  intros H. apply TextFacts.occurs_contains in H. discriminate H.
Qed.

(** C2, amended. The prompt sent to the engine is the concatenation, in
    message order, of the line of every message whose role is "user" or
    "assistant" (its prefix "User: " or "Assistant: ", its content, a line
    feed), followed by the cue "Assistant:"; a message of any other role,
    "system" included, contributes nothing. *)
Theorem prompt_is_the_transcript (g : Globals) (engine : AsyncLLMEngine)
  (request : ChatRequest) :
  llm_engine g = Some engine ->
  map call_prompt (snd (chat_completions g request))
  = [ concat (map transcript_line (messages request))
      ++ of_string "Assistant:" ].
Proof.
  intros H. rewrite (calls_made g engine request H). simpl.
  now rewrite build_prompt_transcript.
Qed.

(** The transcript of the conversation that opens with a system message. *)
Lemma prompt_is_the_transcript_demo :
  map call_prompt (snd (chat_completions demo_globals system_request))
  = [ concat (map transcript_line (messages system_request))
      ++ of_string "Assistant:" ].
Proof.
  apply (prompt_is_the_transcript demo_globals MockEngine system_request).
  reflexivity.
Defined.

(** ** The last output is final *)

(** C3. Whatever outputs the engine yields before the last one, the
    handler answers as if the run had yielded the last output alone; and
    when the run ends normally and the last output has a candidate, the
    content of the returned message is the stripped text of its first
    candidate. *)
Theorem last_output_is_final (g : Globals) (engine : AsyncLLMEngine)
  (request : ChatRequest) (earlier : list RequestOutput)
  (final : RequestOutput) (end_ : option Exception) :
  llm_engine g = Some engine ->
  engine (build_prompt request) (build_sampling_params request)
         (of_string "chat")
  = {| yielded := earlier ++ [final]; raised := end_ |} ->
  chat_completions g request
  = chat_completions
      (with_engine g (fun _ _ _ => {| yielded := [final]; raised := end_ |}))
      request
  /\ (end_ = None ->
      forall candidate rest, outputs final = candidate :: rest ->
      exists response,
        fst (chat_completions g request) = Return response
        /\ map (fun c => message_content (message c)) (choices response)
           = [ strip (text candidate) ]).
Proof.
  intros He Hrun. split.
  - unfold chat_completions, with_engine. cbn [llm_engine].
    rewrite He, Hrun. now rewrite generate_response_last.
  - intros -> candidate rest Hout.
    unfold chat_completions. rewrite He, Hrun. cbn [fst].
    unfold generate_response. rewrite consume_normal_end.
    cbn [and_then]. rewrite Hout. cbn [first and_then].
    eexists. split; reflexivity.
Qed.

(** The engine that yields " Hi" and then " Hi there! ": the answer is
    "Hi there!", as if the first output had not been yielded. *)
Lemma last_output_is_final_demo :
  chat_completions (with_engine demo_globals streaming_engine) hello_request
  = chat_completions
      (with_engine (with_engine demo_globals streaming_engine)
         (fun _ _ _ =>
            {| yielded := [ {| request_id := "chat";
                               outputs := [ {| text := " Hi there! " |} ] |} ];
               raised := None |}))
      hello_request
  /\ exists response,
       fst (chat_completions (with_engine demo_globals streaming_engine)
                             hello_request)
       = Return response
       /\ map (fun c => message_content (message c)) (choices response)
          = [ of_string "Hi there!" ].
Proof.
  destruct (last_output_is_final
              (with_engine demo_globals streaming_engine) streaming_engine
              hello_request
              [ {| request_id := "chat"; outputs := [ {| text := " Hi" |} ] |} ]
              {| request_id := "chat";
                 outputs := [ {| text := " Hi there! " |} ] |}
              None eq_refl eq_refl) as [Hsame Hcontent].
  split; [exact Hsame|].
  destruct (Hcontent eq_refl {| text := " Hi there! " |} [] eq_refl)
    as (response & Hreturn & Hstripped).
  exists response. split; [exact Hreturn | exact Hstripped].
Defined.

(** ** The shape of a successful response *)

(** C10. Every successful chat completion has exactly one choice, with
    index 0, message role "assistant" and finish reason "stop". *)
Theorem one_choice_assistant_stop (g : Globals) (request : ChatRequest)
  (response : ChatResponse) :
  fst (chat_completions g request) = Return response ->
  exists content,
    choices response
    = [ {| index := 0;
           message := {| message_role := "assistant";
                         message_content := content |};
           finish_reason := "stop" |} ].
Proof.
  intros H.
  destruct (chat_completions_returns g request response H)
    as (engine & earlier & final & candidate & rest & _ & _ & _ & ->).
  now exists (strip (text candidate)).
Qed.

Lemma one_choice_assistant_stop_demo :
  exists content,
    choices demo_response
    = [ {| index := 0;
           message := {| message_role := "assistant";
                         message_content := content |};
           finish_reason := "stop" |} ].
Proof.
  apply (one_choice_assistant_stop demo_globals hello_request demo_response).
  reflexivity.
Defined.

(** ** Failures *)

(** C6. Whatever the other globals hold, [GET /health] answers 503 when
    no engine is set; when one is set it answers 200 with a record of
    [status], [model] (the configured model name) and [gpu_memory_used]. *)
Theorem health_is_503_without_engine
  (cm : Config.ConfigManager) (name : str) (available : bool) :
  get_health {| llm_engine := None; config_manager := cm;
                model_name := name; VLLM_AVAILABLE := available |}
  = Detail 503 "Model not loaded"
  /\ forall engine : AsyncLLMEngine,
       exists status gpu_info,
         get_health {| llm_engine := Some engine; config_manager := cm;
                       model_name := name; VLLM_AVAILABLE := available |}
         = Body 200 {| status := status; model := name;
                       gpu_memory_used := Some gpu_info |}.
Proof.
  split; [reflexivity|].
  intros engine. unfold get_health, health_check. cbn [llm_engine respond].
  eexists. eexists. reflexivity.
Qed.

(** C8. With an engine set, an exception raised by the engine's run, after
    any number of outputs, is answered with status 500 and a detail that
    carries the exception's message; so is any exception raised while the
    response is built from the run. *)
Theorem generation_failure_is_500 (g : Globals) (engine : AsyncLLMEngine)
  (request : ChatRequest) (e : Exception) :
  llm_engine g = Some engine ->
  (raised (engine (build_prompt request) (build_sampling_params request)
                  (of_string "chat")) = Some e
   \/ generate_response (build_prompt request)
        (engine (build_prompt request) (build_sampling_params request)
                (of_string "chat")) = Raise e) ->
  respond (fst (chat_completions g request))
  = Detail 500 (of_string "Generation failed: " ++ str_of_exception e).
Proof.
  intros He H.
  assert (Hbody : generate_response (build_prompt request)
                    (engine (build_prompt request)
                            (build_sampling_params request) (of_string "chat"))
                  = Raise e).
  { destruct H as [H|H]; [now apply generate_response_raised | exact H]. }
  unfold chat_completions. rewrite He. cbn [fst]. now rewrite Hbody.
Qed.

(** The engine that runs out of memory after its first output. *)
Lemma generation_failure_is_500_demo :
  respond (fst (chat_completions (with_engine demo_globals failing_engine)
                                 hello_request))
  = Detail 500 "Generation failed: CUDA out of memory".
Proof.
  apply (generation_failure_is_500
           (with_engine demo_globals failing_engine) failing_engine
           hello_request (RuntimeError "CUDA out of memory") eq_refl).
  left. reflexivity.
Defined.

(** ** Request validation *)

Lemma traverse_messages_shaped (validate_str : json -> option str)
  (items : list json) (msgs : list ChatMessage) :
  traverse (validate_ChatMessage validate_str) items = Some msgs ->
  forallb is_message_object items = true.
Proof.
  revert msgs; induction items as [|j items IH]; intros msgs; simpl.
  - reflexivity.
  - destruct (validate_ChatMessage validate_str j) as [m|] eqn:Hj;
      [|discriminate].
    destruct (traverse (validate_ChatMessage validate_str) items) as [ms|];
      [|discriminate].
    intros _. rewrite (IH ms eq_refl), andb_true_r.
    unfold validate_ChatMessage in Hj. unfold is_message_object.
    destruct j; try discriminate.
    destruct (member members "role"); [|discriminate].
    destruct (member members "content"); [reflexivity|discriminate].
Qed.

(** C7. However pydantic converts scalar fields, a body whose [messages]
    is not a sequence of role/content objects is answered with status 422,
    and the engine's [generate] is not called. *)
Theorem invalid_messages_are_rejected
  (validate_str : json -> option str) (validate_int : json -> option Z)
  (validate_float : json -> option float) (g : Globals) (body : json) :
  messages_shaped body = false ->
  post_chat_completions validate_str validate_int validate_float g body
  = (ValidationErrors, [])
  /\ status_code
       (fst (post_chat_completions validate_str validate_int validate_float
               g body)) = 422
  /\ snd (post_chat_completions validate_str validate_int validate_float
            g body) = [].
Proof.
  intros H.
  assert (E : validate_ChatRequest validate_str validate_int validate_float
                body = None).
  { unfold validate_ChatRequest. unfold messages_shaped in H.
    destruct body; try reflexivity.
    destruct (member members "messages") as [j|]; [|reflexivity].
    destruct j; try reflexivity.
    destruct (traverse (validate_ChatMessage validate_str) items) as [msgs|] eqn:Ht;
      [|reflexivity].
    rewrite (traverse_messages_shaped validate_str items msgs Ht) in H.
    discriminate. }
  unfold post_chat_completions. rewrite E. repeat split.
Qed.

(** The body of the repository's own test, [{"messages": "invalid"}]. *)
Lemma invalid_messages_are_rejected_demo :
  post_chat_completions strict_str strict_int strict_float
    demo_globals invalid_body
  = (ValidationErrors, [])
  /\ status_code
       (fst (post_chat_completions strict_str strict_int strict_float
               demo_globals invalid_body)) = 422
  /\ snd (post_chat_completions strict_str strict_int strict_float
            demo_globals invalid_body) = [].
Proof.
  apply (invalid_messages_are_rejected strict_str strict_int strict_float
           demo_globals invalid_body).
  reflexivity.
Defined.

(** ** Sampling parameters *)

(** C9. A request that sets [max_tokens] to 0, [temperature] to 0.0 or
    [top_p] to 0.0 has the engine called with the default of that field
    (512, 0.7, 0.9), and the handler does exactly what it does for the
    request that leaves the field out. *)
Theorem falsy_sampling_parameters_use_defaults
  (g : Globals) (engine : AsyncLLMEngine) (msgs : list ChatMessage)
  (mt : option Z) (t p : option float) :
  llm_engine g = Some engine ->
  let request mt t p :=
    {| messages := msgs; max_tokens := mt; temperature := t; top_p := p |} in
  let passed r := map call_sampling_params (snd (chat_completions g r)) in
  passed (request (Some 0) t p)
  = [ {| vllm.temperature := float_or t 0.7; vllm.top_p := float_or p 0.9;
         vllm.max_tokens := 512 |} ]
  /\ passed (request mt (Some 0%float) p)
     = [ {| vllm.temperature := 0.7; vllm.top_p := float_or p 0.9;
            vllm.max_tokens := int_or mt 512 |} ]
  /\ passed (request mt t (Some 0%float))
     = [ {| vllm.temperature := float_or t 0.7; vllm.top_p := 0.9;
            vllm.max_tokens := int_or mt 512 |} ]
  /\ chat_completions g (request (Some 0) t p)
     = chat_completions g (request default_max_tokens t p)
  /\ chat_completions g (request mt (Some 0%float) p)
     = chat_completions g (request mt default_temperature p)
  /\ chat_completions g (request mt t (Some 0%float))
     = chat_completions g (request mt t default_top_p).
Proof.
  intros He request passed. unfold passed.
  rewrite !(calls_made g engine _ He).
  unfold chat_completions. rewrite He.
  repeat split.
Qed.

(** The demo process asked for zero tokens at temperature zero and
    nucleus zero: the engine is called with 0.7, 0.9 and 512. *)
Lemma falsy_sampling_parameters_demo :
  map call_sampling_params
    (snd (chat_completions demo_globals
            {| messages := messages hello_request; max_tokens := Some 0;
               temperature := Some 0%float; top_p := Some 0%float |}))
  = [ {| vllm.temperature := 0.7; vllm.top_p := 0.9;
         vllm.max_tokens := 512 |} ]
  /\ chat_completions demo_globals
       {| messages := messages hello_request; max_tokens := Some 0;
          temperature := Some 0%float; top_p := Some 0%float |}
     = chat_completions demo_globals hello_request.
Proof.
  destruct (falsy_sampling_parameters_use_defaults
              demo_globals MockEngine (messages hello_request)
              (Some 0) (Some 0%float) (Some 0%float) eq_refl)
    as (Hpassed & _ & _ & Hsame & _).
  split; [exact Hpassed | exact Hsame].
Defined.

End AppFacts.

(* ===================================================================== *)
(** * More on splitting and stripping *)
(* ===================================================================== *)

Module SplitFacts.

Lemma lstrip_split_from (s : str) :
  split_from [] (lstrip s) = split_from [] s.
Proof.
  induction s as [|c s IH]; simpl; [reflexivity|].
  destruct (isspace c) eqn:Hc; [exact IH|].
  simpl. now rewrite Hc.
Qed.

Lemma split_from_spaces (ws cur : str) :
  Forall (fun c => isspace c = true) ws ->
  split_from cur ws = split_from cur [].
Proof.
  intros H; revert cur; induction H as [|c ws Hc _ IH]; intros cur;
    [reflexivity|].
  simpl. rewrite Hc.
  destruct cur; rewrite IH; reflexivity.
Qed.

(** Whitespace at the end of a string adds no word. *)
Lemma split_from_trailing (s ws cur : str) :
  Forall (fun c => isspace c = true) ws ->
  split_from cur (s ++ ws) = split_from cur s.
Proof.
  intros H; revert cur; induction s as [|c s IH]; intros cur.
  - now apply split_from_spaces.
  - simpl. destruct (isspace c); [destruct cur|]; now rewrite IH.
Qed.

Lemma lstrip_decompose (s : str) :
  exists ws, s = ws ++ lstrip s /\ Forall (fun c => isspace c = true) ws.
Proof.
  induction s as [|c s (ws & E & H)]; simpl.
  - exists []. split; [reflexivity|constructor].
  - destruct (isspace c) eqn:Hc.
    + exists (c :: ws). split; [simpl; now rewrite <- E|now constructor].
    + exists []. split; [reflexivity|constructor].
Qed.

Lemma rstrip_decompose (s : str) :
  exists ws, s = rstrip s ++ ws /\ Forall (fun c => isspace c = true) ws.
Proof.
  destruct (lstrip_decompose (rev s)) as (ws & E & H).
  exists (rev ws). split.
  - unfold rstrip. rewrite <- rev_app_distr, <- E. now rewrite rev_involutive.
  - now apply Forall_rev.
Qed.

(** The words of a string are those of the string stripped. *)
Lemma split_strip (s : str) : split (strip s) = split s.
Proof.
  unfold split, strip.
  destruct (rstrip_decompose (lstrip s)) as (ws & E & H).
  rewrite <- (lstrip_split_from s). rewrite E at 2.
  now rewrite split_from_trailing.
Qed.

(** A whitespace character ends the word before it: the word starts of
    the two sides add up. *)
Lemma word_starts_app_space (s t : str) (c : N) (b : bool) :
  isspace c = true ->
  word_starts b (s ++ c :: t) = word_starts b s + word_starts true t.
Proof.
  intros Hc; revert b; induction s as [|x s IH]; intros b; simpl.
  - rewrite Hc. rewrite andb_false_r. reflexivity.
  - rewrite IH. lia.
Qed.

Lemma lower_char_idempotent (c : N) : lower_char (lower_char c) = lower_char c.
Proof.
  unfold lower_char.
  destruct ((65 <=? c) && (c <=? 90))%N eqn:H; [|now rewrite H].
  apply andb_true_iff in H as [H1 H2].
  apply N.leb_le in H1, H2.
  destruct ((65 <=? c + 32) && (c + 32 <=? 90))%N eqn:H'; [|reflexivity].
  apply andb_true_iff in H' as [_ H4]. apply N.leb_le in H4. lia.
Qed.

Lemma lower_idempotent (s : str) : lower (lower s) = lower s.
Proof.
  unfold lower. rewrite map_map. apply map_ext. apply lower_char_idempotent.
Qed.

Lemma dict_lookup_app {V : Type} (a b : dict V) (key : str) :
  dict_lookup (a ++ b) key
  = match dict_lookup a key with
    | Some v => Some v
    | None => dict_lookup b key
    end.
Proof.
  induction a as [|[k v] a IH]; simpl; [reflexivity|].
  destruct (eqb k key); [reflexivity|exact IH].
Qed.

End SplitFacts.

(* ===================================================================== *)
(** * app.py: more on the chat completion route *)
(* ===================================================================== *)

Module EndpointFacts.

Import vllm App.
Local Open Scope string_scope.
Local Open Scope list_scope.
Local Open Scope Z_scope.

(** ** Token counts and the returned text *)

(** The tokens charged for the completion are the words of the message
    content the client receives: stripping the generated text changes no
    word. *)
Theorem completion_tokens_count_the_content (g : Globals)
  (request : ChatRequest) (response : ChatResponse) :
  fst (chat_completions g request) = Return response ->
  exists content,
    map (fun c => message_content (message c)) (choices response) = [content]
    /\ completion_tokens (usage response) = Z.of_nat (word_count content).
Proof.
  intros H.
  destruct (AppFacts.chat_completions_returns g request response H)
    as (engine & earlier & final & candidate & rest & _ & _ & _ & ->).
  exists (strip (text candidate)). split; [reflexivity|].
  cbn [usage completion_tokens]. unfold len.
  now rewrite <- TextFacts.split_length, SplitFacts.split_strip.
Qed.

Lemma completion_tokens_count_the_content_demo :
  exists content,
    map (fun c => message_content (message c)) (choices demo_response)
    = [content]
    /\ completion_tokens (usage demo_response) = Z.of_nat (word_count content).
Proof.
  apply (completion_tokens_count_the_content
           demo_globals hello_request demo_response).
  reflexivity.
Defined.

Lemma word_starts_line (m : ChatMessage) (rest : str) :
  word_starts true (transcript_line m ++ rest)
  = (line_words m + word_starts true rest)%nat.
Proof.
  unfold transcript_line, line_words.
  destruct (eqb (role m) "user").
  - cbn [orb]. rewrite <- !app_assoc.
    change (word_starts true (of_string "User: " ++ content m ++ LF ++ rest))
      with (S (word_starts true (content m ++ 10%N :: rest))).
    rewrite SplitFacts.word_starts_app_space by reflexivity.
    unfold word_count. lia.
  - cbn [orb]. destruct (eqb (role m) "assistant").
    + rewrite <- !app_assoc.
      change (word_starts true
                (of_string "Assistant: " ++ content m ++ LF ++ rest))
        with (S (word_starts true (content m ++ 10%N :: rest))).
      rewrite SplitFacts.word_starts_app_space by reflexivity.
      unfold word_count. lia.
    + reflexivity.
Qed.

Lemma word_count_transcript (msgs : list ChatMessage) :
  word_count (concat (map transcript_line msgs) ++ of_string "Assistant:")
  = (1 + list_sum (map line_words msgs))%nat.
Proof.
  unfold word_count. induction msgs as [|m msgs IH]; [reflexivity|].
  change (list_sum (map line_words (m :: msgs)))
    with (line_words m + list_sum (map line_words msgs))%nat.
  cbn [map concat]. rewrite <- app_assoc.
  rewrite word_starts_line, IH. lia.
Qed.

(** The prompt tokens of a successful request are one for the closing
    cue, one for every user and assistant message, and the words of their
    contents; messages of other roles count for nothing. *)
Theorem prompt_tokens_by_message (g : Globals) (request : ChatRequest)
  (response : ChatResponse) :
  fst (chat_completions g request) = Return response ->
  prompt_tokens (usage response)
  = Z.of_nat (1 + list_sum (map line_words (messages request))).
Proof.
  intros H.
  destruct (AppFacts.chat_completions_returns g request response H)
    as (engine & earlier & final & candidate & rest & _ & _ & _ & ->).
  cbn [usage prompt_tokens]. unfold len.
  rewrite TextFacts.split_length, AppFacts.build_prompt_transcript.
  now rewrite word_count_transcript.
Qed.

Lemma prompt_tokens_by_message_demo :
  prompt_tokens (usage demo_response)
  = Z.of_nat (1 + list_sum (map line_words (messages hello_request))).
Proof.
  apply (prompt_tokens_by_message demo_globals hello_request demo_response).
  reflexivity.
Defined.

(** ** When the handler succeeds *)

(** The handler returns a response exactly when an engine is set, its run
    ends normally after at least one output, and the last output has a
    candidate. *)
Theorem chat_success_iff (g : Globals) (request : ChatRequest) :
  (exists response, fst (chat_completions g request) = Return response)
  <-> exists engine earlier final candidate rest,
        llm_engine g = Some engine
        /\ engine (build_prompt request) (build_sampling_params request)
                  (of_string "chat")
           = {| yielded := earlier ++ [final]; raised := None |}
        /\ outputs final = candidate :: rest.
Proof.
  split.
  - intros (response & H).
    destruct (AppFacts.chat_completions_returns g request response H)
      as (engine & earlier & final & candidate & rest & He & Hrun & Hout & _).
    now exists engine, earlier, final, candidate, rest.
  - intros (engine & earlier & final & candidate & rest & He & Hrun & Hout).
    unfold chat_completions. rewrite He, Hrun. cbn [fst].
    unfold generate_response. rewrite AppFacts.consume_normal_end.
    cbn [and_then]. rewrite Hout. cbn [first and_then].
    eexists. reflexivity.
Qed.

(** What leaves the handler is a response, the 503 of a missing engine, or
    a 500. *)
Lemma chat_completions_outcome (g : Globals) (request : ChatRequest) :
  (exists response, fst (chat_completions g request) = Return response)
  \/ (llm_engine g = None
      /\ fst (chat_completions g request)
         = Raise (HTTPException 503 "Model not loaded"))
  \/ (llm_engine g <> None
      /\ exists detail,
           fst (chat_completions g request)
           = Raise (HTTPException 500 detail)).
Proof.
  unfold chat_completions.
  destruct (llm_engine g) as [engine|]; [|right; left; now split].
  cbn [fst].
  destruct (generate_response (build_prompt request)
              (engine (build_prompt request) (build_sampling_params request)
                      (of_string "chat"))) as [response|e].
  - left. now exists response.
  - right. right. split; [discriminate|]. eexists. reflexivity.
Qed.

(** The route answers 200, 422, 500 or 503 and nothing else; 200 comes
    with a body, and 503 only while no engine is set. *)
Theorem route_status_codes
  (validate_str : json -> option str) (validate_int : json -> option Z)
  (validate_float : json -> option float) (g : Globals) (body : json) :
  let answer :=
    fst (post_chat_completions validate_str validate_int validate_float
           g body) in
  In (status_code answer) [200; 422; 500; 503]
  /\ (status_code answer = 200 -> exists response, answer = Body 200 response)
  /\ (status_code answer = 503 -> llm_engine g = None).
Proof.
  cbv zeta. unfold post_chat_completions.
  destruct (validate_ChatRequest validate_str validate_int validate_float body)
    as [request|].
  - pose proof (chat_completions_outcome g request) as H.
    destruct (chat_completions g request) as [outcome calls].
    cbn [fst] in *.
    destruct H as [(response & ->)|[(Hnone & ->)|(Hsome & detail & ->)]];
      cbn [respond status_code].
    + split; [simpl; auto|]. split; [now exists response|discriminate].
    + split; [simpl; auto|]. split; [discriminate|auto].
    + split; [simpl; auto|]. split; discriminate.
  - cbn [fst status_code]. split; [simpl; auto|]. split; discriminate.
Qed.

(** While no engine is set, a body that validates is answered 503 "Model
    not loaded", without any call to an engine. *)
Theorem no_engine_is_503
  (validate_str : json -> option str) (validate_int : json -> option Z)
  (validate_float : json -> option float) (g : Globals) (body : json)
  (request : ChatRequest) :
  llm_engine g = None ->
  validate_ChatRequest validate_str validate_int validate_float body
  = Some request ->
  post_chat_completions validate_str validate_int validate_float g body
  = (Detail 503 "Model not loaded", []).
Proof.
  intros Hnone Hvalid. unfold post_chat_completions, chat_completions.
  now rewrite Hvalid, Hnone.
Qed.

Lemma no_engine_is_503_demo :
  post_chat_completions strict_str strict_int strict_float
    starting_globals hello_body
  = (Detail 503 "Model not loaded", []).
Proof.
  apply (no_engine_is_503 strict_str strict_int strict_float
           starting_globals hello_body hello_request);
    reflexivity.
Defined.

(** ** Runs that give no text *)

(** A run that ends normally without any output is answered 500: the
    "No output generated" error raised inside the [try] is caught by its
    own handler and wrapped as a generation failure. *)
Theorem empty_run_is_500 (g : Globals) (engine : AsyncLLMEngine)
  (request : ChatRequest) :
  llm_engine g = Some engine ->
  engine (build_prompt request) (build_sampling_params request)
         (of_string "chat")
  = {| yielded := []; raised := None |} ->
  respond (fst (chat_completions g request))
  = Detail 500
      (of_string "Generation failed: "
       ++ str_of_exception (HTTPException 500 "No output generated")).
Proof.
  intros He Hrun. unfold chat_completions. now rewrite He, Hrun.
Qed.

Lemma empty_run_is_500_demo :
  respond
    (fst (chat_completions
            (with_engine demo_globals
               (fun _ _ _ => {| yielded := []; raised := None |}))
            hello_request))
  = Detail 500 "Generation failed: 500: No output generated".
Proof.
  apply (empty_run_is_500
           (with_engine demo_globals
              (fun _ _ _ => {| yielded := []; raised := None |}))
           (fun _ _ _ => {| yielded := []; raised := None |})
           hello_request);
    reflexivity.
Defined.

(** A run whose last output has no candidate is answered 500 with the
    message of the [IndexError], whatever the earlier outputs held. *)
Theorem no_candidate_is_500 (g : Globals) (engine : AsyncLLMEngine)
  (request : ChatRequest) (earlier : list RequestOutput)
  (final : RequestOutput) :
  llm_engine g = Some engine ->
  engine (build_prompt request) (build_sampling_params request)
         (of_string "chat")
  = {| yielded := earlier ++ [final]; raised := None |} ->
  outputs final = [] ->
  respond (fst (chat_completions g request))
  = Detail 500 "Generation failed: list index out of range".
Proof.
  intros He Hrun Hout. unfold chat_completions. rewrite He, Hrun. cbn [fst].
  unfold generate_response. rewrite AppFacts.consume_normal_end.
  cbn [and_then]. now rewrite Hout.
Qed.

Lemma no_candidate_is_500_demo :
  respond
    (fst (chat_completions
            (with_engine demo_globals
               (fun _ _ request_id =>
                  {| yielded :=
                       [ {| request_id := request_id;
                            outputs := [ {| text := "Hi" |} ] |};
                         {| request_id := request_id; outputs := [] |} ];
                     raised := None |}))
            hello_request))
  = Detail 500 "Generation failed: list index out of range".
Proof.
  apply (no_candidate_is_500
           (with_engine demo_globals
              (fun _ _ request_id =>
                 {| yielded :=
                      [ {| request_id := request_id;
                           outputs := [ {| text := "Hi" |} ] |};
                        {| request_id := request_id; outputs := [] |} ];
                    raised := None |}))
           (fun _ _ request_id =>
              {| yielded :=
                   [ {| request_id := request_id;
                        outputs := [ {| text := "Hi" |} ] |};
                     {| request_id := request_id; outputs := [] |} ];
                 raised := None |})
           hello_request
           [ {| request_id := "chat"; outputs := [ {| text := "Hi" |} ] |} ]
           {| request_id := "chat"; outputs := [] |});
    reflexivity.
Defined.

(** ** Sampling parameters *)

Lemma float_or_not_zero (x : option float) (default : float) :
  PrimFloat.eqb default 0 = false ->
  PrimFloat.eqb (float_or x default) 0 = false.
Proof.
  intros Hd. unfold float_or. destruct x as [v|]; [|exact Hd].
  destruct (PrimFloat.eqb v 0) eqn:Hv; [exact Hd|exact Hv].
Qed.

(** The engine is never called with a zero: whatever the request holds,
    the temperature and the nucleus threshold passed compare unequal to
    0.0 and the token limit passed is not 0. *)
Theorem sampling_parameters_are_never_zero (g : Globals)
  (request : ChatRequest) (call : GenerateCall) :
  In call (snd (chat_completions g request)) ->
  PrimFloat.eqb (vllm.temperature (call_sampling_params call)) 0 = false
  /\ PrimFloat.eqb (vllm.top_p (call_sampling_params call)) 0 = false
  /\ vllm.max_tokens (call_sampling_params call) <> 0.
Proof.
  unfold chat_completions.
  destruct (llm_engine g) as [engine|]; cbn [snd]; [|intros []].
  intros [<-|[]]. cbn [call_sampling_params build_sampling_params
                       vllm.temperature vllm.top_p vllm.max_tokens].
  split; [now apply float_or_not_zero|].
  split; [now apply float_or_not_zero|].
  unfold int_or. destruct (max_tokens request) as [n|]; [|discriminate].
  destruct (n =? 0) eqn:Hn; [discriminate|]. now apply Z.eqb_neq.
Qed.

Lemma sampling_parameters_are_never_zero_demo :
  PrimFloat.eqb 0.7 0 = false /\ PrimFloat.eqb 0.9 0 = false /\ 512 <> 0.
Proof.
  apply (sampling_parameters_are_never_zero demo_globals
           {| messages := []; max_tokens := Some 0;
              temperature := Some 0%float; top_p := None |}
           {| call_prompt := "Assistant:";
              call_sampling_params :=
                {| vllm.temperature := 0.7; vllm.top_p := 0.9;
                   vllm.max_tokens := 512 |};
              call_request_id := "chat" |}).
  left. reflexivity.
Defined.

(** ** Keys the schema does not name *)

Lemma member_other_key (before after : list (str * json)) (key name : str)
  (v : json) :
  eqb key name = false ->
  member (before ++ (key, v) :: after) name = member (before ++ after) name.
Proof.
  intros H. unfold member.
  rewrite !rev_app_distr. cbn [rev]. rewrite <- app_assoc.
  rewrite !SplitFacts.dict_lookup_app. cbn [app dict_lookup]. now rewrite H.
Qed.

(** A key of the body that is none of the four fields of the schema
    ("model" or "stream", say) changes nothing: the body is validated,
    answered and passed to the engine as without it. *)
Theorem unknown_keys_are_ignored
  (validate_str : json -> option str) (validate_int : json -> option Z)
  (validate_float : json -> option float) (g : Globals)
  (before after : list (str * json)) (key : str) (v : json) :
  eqb key "messages" = false ->
  eqb key "max_tokens" = false ->
  eqb key "temperature" = false ->
  eqb key "top_p" = false ->
  post_chat_completions validate_str validate_int validate_float g
    (JObject (before ++ (key, v) :: after))
  = post_chat_completions validate_str validate_int validate_float g
      (JObject (before ++ after)).
Proof.
  intros H1 H2 H3 H4.
  unfold post_chat_completions, validate_ChatRequest, optional_field.
  now rewrite !member_other_key.
Qed.

Lemma unknown_keys_are_ignored_demo :
  post_chat_completions strict_str strict_int strict_float demo_globals
    (JObject
       ([ (of_string "messages", JArray []) ]
        ++ (of_string "stream", JBool true) :: []))
  = post_chat_completions strict_str strict_int strict_float demo_globals
      (JObject ([ (of_string "messages", JArray []) ] ++ [])).
Proof.
  apply (unknown_keys_are_ignored strict_str strict_int strict_float
           demo_globals [ (of_string "messages", JArray []) ] []
           "stream" (JBool true));
    reflexivity.
Defined.

End EndpointFacts.

(* ===================================================================== *)
(** * config.py: the manager beyond the selector *)
(* ===================================================================== *)

Module ManagerFacts.

Import Config.
Local Open Scope string_scope.
Local Open Scope list_scope.

(** ** Detection *)

(** Detection ignores the letter case of the system name and of the
    architecture string, and answers one of five tags. *)
Theorem detection_ignores_case (h : Host) :
  _detect_platform
    {| system := lower (system h); machine := lower (machine h);
       nvidia_smi := nvidia_smi h |}
  = _detect_platform h
  /\ In (_detect_platform h)
        [ of_string "macos_apple_silicon"; of_string "macos_intel";
          of_string "linux"; of_string "windows"; of_string "unknown" ].
Proof.
  split.
  - unfold _detect_platform. cbn [system machine].
    now rewrite !SplitFacts.lower_idempotent.
  - unfold _detect_platform.
    destruct (eqb (lower (system h)) "darwin").
    + destruct (contains (lower (machine h)) "arm"
                || contains (lower (machine h)) "aarch64"); simpl; auto.
    + destruct (eqb (lower (system h)) "linux"); [simpl; auto|].
      destruct (eqb (lower (system h)) "windows"); simpl; auto 6.
Qed.

(** ** A probe that cannot be started *)

Lemma answered (h : Host) (n : nat) :
  probe_answer (nvidia_smi h n) <> None ->
  _has_cuda h n = (Return (answer h n), S n).
Proof.
  intros H. apply ConfigFacts._has_cuda_answer. unfold answer.
  destruct (probe_answer (nvidia_smi h n)); congruence.
Qed.

(** On every platform, macOS included, the first launch of the probe that
    cannot be started ends [ConfigManager()] with that error: no manager
    is built and no further launch is made. *)
Theorem first_failed_launch_ends_init (h : Host) (launched k : nat)
  (message : str) :
  k < 4 ->
  (forall i, i < k -> probe_answer (nvidia_smi h (launched + i)) <> None) ->
  nvidia_smi h (launched + k) = OSError message ->
  __init__ h launched = (Raise (RuntimeError message), launched + k + 1).
Proof.
  intros Hk Hbefore Hfail.
  apply ConfigFacts._has_cuda_raises in Hfail.
  assert (E : forall i, i < k ->
            _has_cuda h (launched + i)
            = (Return (answer h (launched + i)), S (launched + i))).
  { intros i Hi. apply answered. now apply Hbefore. }
  unfold __init__, _get_platform_config, bind.
  destruct k as [|[|[|[|k]]]]; [| | | |lia].
  - rewrite Nat.add_0_r in Hfail. rewrite Hfail. f_equal. lia.
  - pose proof (E 0 ltac:(lia)) as E0. rewrite Nat.add_0_r in E0.
    replace (launched + 1) with (S launched) in Hfail by lia.
    rewrite E0, Hfail. f_equal. lia.
  - pose proof (E 0 ltac:(lia)) as E0. rewrite Nat.add_0_r in E0.
    pose proof (E 1 ltac:(lia)) as E1.
    replace (launched + 1) with (S launched) in E1 by lia.
    replace (launched + 2) with (S (S launched)) in Hfail by lia.
    rewrite E0, E1, Hfail. f_equal. lia.
  - pose proof (E 0 ltac:(lia)) as E0. rewrite Nat.add_0_r in E0.
    pose proof (E 1 ltac:(lia)) as E1.
    replace (launched + 1) with (S launched) in E1 by lia.
    pose proof (E 2 ltac:(lia)) as E2.
    replace (launched + 2) with (S (S launched)) in E2 by lia.
    replace (launched + 3) with (S (S (S launched))) in Hfail by lia.
    rewrite E0, E1, E2, Hfail. f_equal. lia.
Qed.

Lemma first_failed_launch_on_mac :
  __init__ mac_flaky_host 0
  = (Raise (RuntimeError "[Errno 8] Exec format error: 'nvidia-smi'"), 0 + 2 + 1).
Proof.
  apply (first_failed_launch_ends_init mac_flaky_host 0 2
           "[Errno 8] Exec format error: 'nvidia-smi'").
  - lia.
  - intros i Hi. destruct i as [|[|i]]; [discriminate|discriminate|lia].
  - reflexivity.
Defined.

(** ** What the built manager looks like *)

Lemma macos_detected (h : Host) :
  startswith (_detect_platform h) "macos"
  = eqb (lower (system h)) "darwin".
Proof.
  unfold _detect_platform.
  destruct (eqb (lower (system h)) "darwin").
  - destruct (contains (lower (machine h)) "arm"
              || contains (lower (machine h)) "aarch64"); reflexivity.
  - destruct (eqb (lower (system h)) "linux"); [reflexivity|].
    destruct (eqb (lower (system h)) "windows"); reflexivity.
Qed.

Lemma linux_detected (h : Host) :
  eqb (_detect_platform h) "linux" = eqb (lower (system h)) "linux".
Proof.
  unfold _detect_platform.
  destruct (eqb (lower (system h)) "darwin") eqn:Hd.
  - apply TextFacts.eqb_eq in Hd. rewrite Hd.
    destruct (contains (lower (machine h)) "arm"
              || contains (lower (machine h)) "aarch64"); reflexivity.
  - destruct (eqb (lower (system h)) "linux"); [reflexivity|].
    destruct (eqb (lower (system h)) "windows"); reflexivity.
Qed.

Lemma built_supports_cuda (h : Host) (launched : nat) (cm : ConfigManager) :
  (forall i, i < 4 -> probe_answer (nvidia_smi h (launched + i)) <> None) ->
  fst (__init__ h launched) = Return cm ->
  platform cm = _detect_platform h
  /\ supports_cuda (config cm) = built_cuda h launched.
Proof.
  intros H. rewrite (ConfigFacts.__init___runs h launched H). cbn [fst].
  intros E. inversion E. cbn [platform config]. split; [reflexivity|].
  unfold built_cuda, tag_of.
  destruct (eqb (lower (system h)) "darwin").
  - destruct (contains (lower (machine h)) "arm"
              || contains (lower (machine h)) "aarch64"); reflexivity.
  - destruct (eqb (lower (system h)) "windows"); reflexivity.
Qed.

(** ** Engine arguments *)

(** The keys of the engine arguments, in order: the four base keys, the
    two GPU keys with a CUDA record and the two eager-mode keys without,
    and on a macOS platform the eager-mode keys (once) and
    [max_num_seqs]. No key occurs twice. *)
Theorem vllm_args_keys (cm : ConfigManager) (env_vars : EnvVars) :
  keys (get_vllm_args cm env_vars)
  = [ of_string "model"; of_string "tensor_parallel_size";
      of_string "max_model_len"; of_string "trust_remote_code" ]
    ++ (if supports_cuda (config cm)
        then [ of_string "gpu_memory_utilization"; of_string "dtype" ]
        else [ of_string "enforce_eager";
               of_string "disable_custom_all_reduce" ])
    ++ (if startswith (platform cm) "macos"
        then (if supports_cuda (config cm)
              then [ of_string "enforce_eager";
                     of_string "disable_custom_all_reduce" ]
              else [])
             ++ [ of_string "max_num_seqs" ]
        else [])
  /\ NoDup (keys (get_vllm_args cm env_vars)).
Proof.
  unfold get_vllm_args.
  destruct (supports_cuda (config cm)), (startswith (platform cm) "macos");
    (split; [reflexivity|]);
    cbv -[PrimFloat.eqb];
    repeat constructor; cbv; intuition discriminate.
Qed.

(** The engine arguments are decided by the model name, the parallel
    size, the length limit and the remote-code flag, and with a CUDA record
    by the memory utilisation: [ENFORCE_EAGER],
    [DISABLE_CUSTOM_ALL_REDUCE], [HOST] and [PORT] never reach them. *)
Theorem vllm_args_ignore_eager_variables (cm : ConfigManager)
  (a b : EnvVars) :
  MODEL_NAME a = MODEL_NAME b ->
  TENSOR_PARALLEL_SIZE a = TENSOR_PARALLEL_SIZE b ->
  MAX_MODEL_LEN a = MAX_MODEL_LEN b ->
  TRUST_REMOTE_CODE a = TRUST_REMOTE_CODE b ->
  (supports_cuda (config cm) = true ->
   GPU_MEMORY_UTILIZATION a = GPU_MEMORY_UTILIZATION b) ->
  get_vllm_args cm a = get_vllm_args cm b.
Proof.
  intros H1 H2 H3 H4 H5. unfold get_vllm_args.
  rewrite H1, H2, H3, H4.
  destruct (supports_cuda (config cm)); [rewrite (H5 eq_refl)|]; reflexivity.
Qed.

Lemma vllm_args_ignore_eager_variables_demo :
  get_vllm_args {| platform := "linux"; config := linux_config true true |}
                default_env_vars
  = get_vllm_args {| platform := "linux"; config := linux_config true true |}
                  eager_env_vars.
Proof.
  apply (vllm_args_ignore_eager_variables
           {| platform := "linux"; config := linux_config true true |}
           default_env_vars eager_env_vars);
    reflexivity.
Defined.

(** For every manager [ConfigManager()] builds, the engine arguments hold
    either the GPU memory setting or the eager-mode switches, never both:
    with a CUDA record the memory utilisation of the environment and no
    [enforce_eager] or [max_num_seqs]; without one [enforce_eager] and
    [disable_custom_all_reduce] set to true and no memory setting. *)
Theorem built_args_are_gpu_or_eager (h : Host) (launched : nat)
  (cm : ConfigManager) (env_vars : EnvVars) :
  (forall i, i < 4 -> probe_answer (nvidia_smi h (launched + i)) <> None) ->
  fst (__init__ h launched) = Return cm ->
  let args := get_vllm_args cm env_vars in
  if supports_cuda (config cm)
  then dict_lookup args "gpu_memory_utilization"
       = Some (VFloat (GPU_MEMORY_UTILIZATION env_vars))
       /\ dict_lookup args "enforce_eager" = None
       /\ dict_lookup args "disable_custom_all_reduce" = None
       /\ dict_lookup args "max_num_seqs" = None
  else dict_lookup args "gpu_memory_utilization" = None
       /\ dict_lookup args "enforce_eager" = Some (VBool true)
       /\ dict_lookup args "disable_custom_all_reduce" = Some (VBool true).
Proof.
  intros H Hcm.
  destruct (built_supports_cuda h launched cm H Hcm) as [Hp Hc].
  cbv zeta. unfold get_vllm_args. rewrite Hp, macos_detected, Hc.
  unfold built_cuda.
  destruct (eqb (lower (system h)) "darwin"); [repeat split|].
  destruct (eqb (lower (system h)) "windows");
    match goal with
    | |- context [answer h ?n] => destruct (answer h n); repeat split
    end.
Qed.

Lemma built_args_on_linux_gpu :
  let args := get_vllm_args
                {| platform := "linux"; config := linux_config true true |}
                default_env_vars in
  dict_lookup args "gpu_memory_utilization" = Some (VFloat 0.9)
  /\ dict_lookup args "enforce_eager" = None
  /\ dict_lookup args "disable_custom_all_reduce" = None
  /\ dict_lookup args "max_num_seqs" = None.
Proof.
  apply (built_args_are_gpu_or_eager linux_gpu_host 0
           {| platform := "linux"; config := linux_config true true |}
           default_env_vars).
  - intros i _. discriminate.
  - reflexivity.
Defined.

(** ** Installation advice *)

(** For the manager [ConfigManager()] builds: a Mac gets the macOS
    commands; the CUDA commands are given only where the system is Linux
    and the first launch of the probe found a GPU; every other host, a
    Windows or an unrecognised system with a GPU included, gets the
    CPU-only commands. *)
Theorem installation_command_by_host (h : Host) (launched : nat)
  (cm : ConfigManager) :
  (forall i, i < 4 -> probe_answer (nvidia_smi h (launched + i)) <> None) ->
  fst (__init__ h launched) = Return cm ->
  get_installation_command cm
  = if eqb (lower (system h)) "darwin" then macos_installation
    else if eqb (lower (system h)) "linux" && answer h launched
    then linux_cuda_installation
    else cpu_only_installation.
Proof.
  intros H Hcm.
  destruct (built_supports_cuda h launched cm H Hcm) as [Hp Hc].
  unfold get_installation_command.
  rewrite Hp, macos_detected, linux_detected, Hc. unfold built_cuda.
  destruct (eqb (lower (system h)) "darwin"); [reflexivity|].
  destruct (eqb (lower (system h)) "linux") eqn:Hl; [|reflexivity].
  apply TextFacts.eqb_eq in Hl. rewrite Hl. reflexivity.
Qed.

(** A Windows machine with a working GPU is given the CPU-only
    commands. *)
Lemma installation_command_on_windows_gpu :
  get_installation_command
    {| platform := "windows"; config := windows_config true true |}
  = cpu_only_installation.
Proof.
  apply (installation_command_by_host windows_gpu_host 0
           {| platform := "windows"; config := windows_config true true |}).
  - intros i _. discriminate.
  - reflexivity.
Defined.

(** ** The default model *)

(** The model of the built manager: the value of [MODEL_NAME] where the
    environment sets it, taken as it is; otherwise the medium model where
    the record supports CUDA and the small one elsewhere, so always the
    small one on a Mac. *)
Theorem model_name_by_host (int : str -> Outcome Z)
  (float_ : str -> Outcome float) (h : Host) (launched : nat)
  (cm : ConfigManager) (environ : str -> option str) (env_vars : EnvVars) :
  (forall i, i < 4 -> probe_answer (nvidia_smi h (launched + i)) <> None) ->
  fst (__init__ h launched) = Return cm ->
  _load_environment_variables int float_ cm environ = Return env_vars ->
  MODEL_NAME env_vars
  = match environ "MODEL_NAME" with
    | Some name => name
    | None => if built_cuda h launched
              then of_string "microsoft/DialoGPT-medium"
              else of_string "microsoft/DialoGPT-small"
    end.
Proof.
  intros H Hcm.
  destruct (built_supports_cuda h launched cm H Hcm) as [_ Hc].
  unfold _load_environment_variables.
  destruct (int (getenv environ "PORT" "8000")); [|discriminate].
  destruct (int (getenv environ "MAX_MODEL_LEN" "2048")); [|discriminate].
  destruct (float_ (getenv environ "GPU_MEMORY_UTILIZATION" "0.9"));
    [|discriminate].
  destruct (int (getenv environ "TENSOR_PARALLEL_SIZE" "1")); [|discriminate].
  cbn [and_then]. intros E. inversion E. cbn [MODEL_NAME].
  unfold getenv, _get_default_model. now rewrite Hc.
Qed.

Lemma model_name_on_linux_gpu :
  MODEL_NAME
    {| MODEL_NAME := "microsoft/DialoGPT-medium";
       HOST := "0.0.0.0"; PORT := 8000; MAX_MODEL_LEN := 2048;
       GPU_MEMORY_UTILIZATION := 0.9; TENSOR_PARALLEL_SIZE := 1;
       TRUST_REMOTE_CODE := true; ENFORCE_EAGER := false;
       DISABLE_CUSTOM_ALL_REDUCE := false |}
  = of_string "microsoft/DialoGPT-medium".
Proof.
  apply (model_name_by_host sample_int sample_float linux_gpu_host 0
           {| platform := "linux"; config := linux_config true true |}
           empty_environ).
  - intros i _. discriminate.
  - reflexivity.
  - reflexivity.
Defined.

(** ** Environment validation *)

(** The recommendations, in the order they are appended. *)
Lemma recommendations_closed_form (cm : ConfigManager) (py : Python) :
  recommendations (validate_environment cm py)
  = (match torch py with
     | Some _ => []
     | None => [of_string "Install PyTorch"]
     end)
    ++ (if vllm_importable py then [] else [of_string "Install vLLM"])
    ++ (if startswith (platform cm) "macos"
           && match torch py with Some _ => false | None => true end
        then [of_string "Install PyTorch for macOS"] else [])
    ++ (if supports_cuda (config cm)
           && negb match torch py with
                   | Some t => cuda_is_available t
                   | None => false
                   end
        then [of_string "CUDA detected but PyTorch CUDA not available"]
        else []).
Proof.
  unfold validate_environment.
  destruct (torch py) as [t|], (vllm_importable py),
    (startswith (platform cm) "macos"), (supports_cuda (config cm));
    cbn -[of_string]; try reflexivity;
    destruct (cuda_is_available t); reflexivity.
Qed.

(** The validation recommends nothing exactly when PyTorch and vLLM can
    both be imported and, where the platform record supports CUDA,
    PyTorch sees CUDA too. *)
Theorem no_recommendation_iff (cm : ConfigManager) (py : Python) :
  recommendations (validate_environment cm py) = []
  <-> exists t,
        torch py = Some t
        /\ vllm_importable py = true
        /\ (supports_cuda (config cm) = true -> cuda_is_available t = true).
Proof.
  rewrite recommendations_closed_form. split.
  - destruct (torch py) as [t|]; [|discriminate].
    destruct (vllm_importable py); [|discriminate].
    rewrite andb_false_r. cbn [app].
    destruct (supports_cuda (config cm)); cbn [andb].
    + destruct (cuda_is_available t) eqn:Hcuda; [|discriminate].
      intros _. exists t. auto.
    + intros _. exists t. repeat split. discriminate.
  - intros (t & -> & -> & Hc). rewrite andb_false_r. cbn [app].
    destruct (supports_cuda (config cm)); [|reflexivity].
    now rewrite (Hc eq_refl).
Qed.

(** Without PyTorch the report shows no PyTorch, no CUDA and no MPS and
    recommends installing PyTorch; on a macOS platform it recommends
    PyTorch for macOS as well, and with a CUDA record it also reports a
    CUDA mismatch. *)
Theorem validation_without_torch (cm : ConfigManager) (py : Python) :
  torch py = None ->
  let v := validate_environment cm py in
  torch_available v = false
  /\ cuda_available v = false
  /\ mps_available v = false
  /\ In (of_string "Install PyTorch") (recommendations v)
  /\ (startswith (platform cm) "macos" = true ->
      In (of_string "Install PyTorch for macOS") (recommendations v))
  /\ (supports_cuda (config cm) = true ->
      In (of_string "CUDA detected but PyTorch CUDA not available")
         (recommendations v)).
Proof.
  intros Ht. cbv zeta.
  repeat split;
    try (unfold validate_environment; rewrite Ht;
         destruct (vllm_importable py),
           (startswith (platform cm) "macos"),
           (supports_cuda (config cm)); reflexivity).
  - rewrite recommendations_closed_form, Ht. left. reflexivity.
  - intros Hm. rewrite recommendations_closed_form, Ht, Hm.
    cbn [andb]. rewrite !in_app_iff. right. right. left. left. reflexivity.
  - intros Hc. rewrite recommendations_closed_form, Ht, Hc.
    cbn [andb negb]. rewrite !in_app_iff. right. right. right. left.
    reflexivity.
Qed.

Lemma validation_without_torch_on_mac :
  let v := validate_environment
             {| platform := "macos_intel"; config := macos_intel_config |}
             bare_python in
  torch_available v = false
  /\ cuda_available v = false
  /\ mps_available v = false
  /\ In (of_string "Install PyTorch") (recommendations v)
  /\ (startswith (of_string "macos_intel") "macos" = true ->
      In (of_string "Install PyTorch for macOS") (recommendations v))
  /\ (supports_cuda macos_intel_config = true ->
      In (of_string "CUDA detected but PyTorch CUDA not available")
         (recommendations v)).
Proof.
  apply (validation_without_torch
           {| platform := "macos_intel"; config := macos_intel_config |}
           bare_python).
  reflexivity.
Defined.

End ManagerFacts.

(* ===================================================================== *)
(** * app.py: the lifespan of the server *)
(* ===================================================================== *)

Module LifespanFacts.

Import vllm App.
Local Open Scope string_scope.
Local Open Scope list_scope.
Local Open Scope Z_scope.

Lemma startup_sets_engine (g g' : Globals) (env_vars : Config.EnvVars)
  (lib : Library) :
  lifespan_startup g env_vars lib = Return g' ->
  exists engine,
    g' = with_engine g engine
    /\ (VLLM_AVAILABLE g = false -> engine = MockEngine).
Proof.
  unfold lifespan_startup.
  destruct (VLLM_AVAILABLE g).
  - destruct (from_engine_args lib _) as [engine|e].
    + intros E. inversion E. exists engine. split; [reflexivity|discriminate].
    + destruct (AsyncLLMEngine_ lib) as [engine|e']; [|discriminate].
      cbn [and_then]. intros E. inversion E. exists engine.
      split; [reflexivity|discriminate].
  - intros E. inversion E. exists MockEngine. split; reflexivity.
Qed.

(** Between startup and cleanup the server never answers 503: the health
    check answers 200 and the chat route 200, 422 or 500. Once the
    lifespan has cleaned up, the health check answers 503 again. *)
Theorem started_server_is_never_503
  (validate_str : json -> option str) (validate_int : json -> option Z)
  (validate_float : json -> option float)
  (g g' : Globals) (env_vars : Config.EnvVars) (lib : Library)
  (body : json) :
  lifespan_startup g env_vars lib = Return g' ->
  status_code (get_health g') = 200
  /\ In (status_code
          (fst (post_chat_completions validate_str validate_int
                  validate_float g' body)))
        [200; 422; 500]
  /\ get_health (lifespan_cleanup g') = Detail 503 "Model not loaded".
Proof.
  intros H. destruct (startup_sets_engine g g' env_vars lib H)
    as (engine & -> & _).
  split; [reflexivity|]. split; [|reflexivity].
  unfold post_chat_completions.
  destruct (validate_ChatRequest validate_str validate_int validate_float body)
    as [request|]; [|simpl; auto].
  pose proof (EndpointFacts.chat_completions_outcome
                (with_engine g engine) request) as Hout.
  destruct (chat_completions (with_engine g engine) request)
    as [outcome calls].
  cbn [fst] in *.
  destruct Hout as [(response & ->)|[(Hnone & _)|(_ & detail & ->)]].
  - simpl. auto.
  - discriminate Hnone.
  - simpl. auto.
Qed.

Lemma started_demo_server_is_never_503 :
  status_code (get_health demo_globals) = 200
  /\ In (status_code
          (fst (post_chat_completions strict_str strict_int strict_float
                  demo_globals invalid_body)))
        [200; 422; 500]
  /\ get_health (lifespan_cleanup demo_globals)
     = Detail 503 "Model not loaded".
Proof.
  apply (started_server_is_never_503 strict_str strict_int strict_float
           starting_globals demo_globals Config.default_env_vars
           {| from_engine_args := fun _ => Raise (RuntimeError "no GPU");
              AsyncLLMEngine_ := Raise (RuntimeError "missing arguments") |}
           invalid_body).
  reflexivity.
Defined.

(** Where the library could not be imported, the started server answers
    every body that validates with 200, the fixed text of the stand-in
    engine under the id "chat-chat", 12 completion tokens and the prompt
    tokens of the request; its health check reports "demo_mode". *)
Theorem demo_mode_answers_every_request
  (validate_str : json -> option str) (validate_int : json -> option Z)
  (validate_float : json -> option float)
  (g : Globals) (env_vars : Config.EnvVars) (lib : Library)
  (body : json) (request : ChatRequest) :
  VLLM_AVAILABLE g = false ->
  validate_ChatRequest validate_str validate_int validate_float body
  = Some request ->
  exists g',
    lifespan_startup g env_vars lib = Return g'
    /\ (exists gpu_info,
          get_health g'
          = Body 200 {| status := "demo_mode"; model := model_name g;
                        gpu_memory_used := Some gpu_info |})
    /\ fst (post_chat_completions validate_str validate_int validate_float
              g' body)
       = Body 200
           {| id := "chat-chat";
              choices :=
                [ {| index := 0;
                     message :=
                       {| message_role := "assistant";
                          message_content :=
                            "Demo response: This is a mock response since vLLM is not available." |};
                     finish_reason := "stop" |} ];
              usage :=
                {| prompt_tokens :=
                     Z.of_nat (1 + list_sum (map line_words (messages request)));
                   completion_tokens := 12;
                   total_tokens :=
                     Z.of_nat (1 + list_sum (map line_words (messages request)))
                     + 12 |} |}.
Proof.
  intros Hdemo Hvalid. exists (with_engine g MockEngine).
  split; [unfold lifespan_startup; now rewrite Hdemo|]. split.
  - unfold get_health, health_check, with_engine.
    cbn [llm_engine VLLM_AVAILABLE model_name config_manager respond].
    rewrite Hdemo. eexists. reflexivity.
  - unfold post_chat_completions. rewrite Hvalid.
    unfold chat_completions, with_engine. cbn [llm_engine].
    unfold generate_response, MockEngine, consume.
    cbn [yielded raised fold_left and_then first outputs text request_id
         fst respond].
    assert (E : len (split (build_prompt request))
                = Z.of_nat (1 + list_sum (map line_words (messages request)))).
    { unfold len. rewrite TextFacts.split_length.
      rewrite AppFacts.build_prompt_transcript.
      now rewrite EndpointFacts.word_count_transcript. }
    rewrite E. reflexivity.
Qed.

Lemma demo_mode_answers_hello :
  exists g',
    lifespan_startup starting_globals Config.default_env_vars
      {| from_engine_args := fun _ => Raise (RuntimeError "no GPU");
         AsyncLLMEngine_ := Raise (RuntimeError "missing arguments") |}
    = Return g'
    /\ (exists gpu_info,
          get_health g'
          = Body 200 {| status := "demo_mode";
                        model := model_name starting_globals;
                        gpu_memory_used := Some gpu_info |})
    /\ fst (post_chat_completions strict_str strict_int strict_float
              g' hello_body)
       = Body 200
           {| id := "chat-chat";
              choices :=
                [ {| index := 0;
                     message :=
                       {| message_role := "assistant";
                          message_content :=
                            "Demo response: This is a mock response since vLLM is not available." |};
                     finish_reason := "stop" |} ];
              usage :=
                {| prompt_tokens :=
                     Z.of_nat (1 + list_sum (map line_words
                                               (messages hello_request)));
                   completion_tokens := 12;
                   total_tokens :=
                     Z.of_nat (1 + list_sum (map line_words
                                               (messages hello_request)))
                     + 12 |} |}.
Proof.
  apply (demo_mode_answers_every_request strict_str strict_int strict_float
           starting_globals Config.default_env_vars
           {| from_engine_args := fun _ => Raise (RuntimeError "no GPU");
              AsyncLLMEngine_ := Raise (RuntimeError "missing arguments") |}
           hello_body hello_request);
    reflexivity.
Defined.

(** The GPU line of the health check, for the manager [ConfigManager()]
    builds: "CUDA enabled" where the record supports CUDA (the first
    launch of the probe on Linux and unrecognised systems, the third on
    Windows), "MPS (Apple Silicon) enabled" on a Mac with an ARM
    architecture string, "CPU only" elsewhere. *)
Theorem health_gpu_line_by_host (h : Config.Host) (launched : nat)
  (g : Globals) (engine : AsyncLLMEngine) :
  (forall i, (i < 4)%nat ->
             Config.probe_answer (Config.nvidia_smi h (launched + i)) <> None) ->
  fst (Config.__init__ h launched) = Return (config_manager g) ->
  llm_engine g = Some engine ->
  get_health g
  = Body 200
      {| status := if VLLM_AVAILABLE g then of_string "healthy"
                   else of_string "demo_mode";
         model := model_name g;
         gpu_memory_used :=
           Some (if Config.built_cuda h launched
                 then of_string "CUDA enabled"
                 else if eqb (lower (Config.system h)) "darwin"
                         && (contains (lower (Config.machine h)) "arm"
                             || contains (lower (Config.machine h)) "aarch64")
                 then of_string "MPS (Apple Silicon) enabled"
                 else of_string "CPU only") |}.
Proof.
  intros H Hcm He.
  rewrite (ConfigFacts.__init___runs h launched H) in Hcm. cbn [fst] in Hcm.
  inversion Hcm as [Hcfg]. clear Hcm.
  unfold get_health, health_check. rewrite He, <- Hcfg.
  cbn [Config.config respond].
  unfold Config.built_cuda, Config.tag_of.
  destruct (eqb (lower (Config.system h)) "darwin").
  - destruct (contains (lower (Config.machine h)) "arm"
              || contains (lower (Config.machine h)) "aarch64"); reflexivity.
  - destruct (eqb (lower (Config.system h)) "windows"); cbn [andb].
    + cbn [Config.supports_cuda Config.windows_config].
      destruct (Config.answer h (launched + 2)); reflexivity.
    + cbn [Config.supports_cuda Config.linux_config].
      destruct (Config.answer h launched); reflexivity.
Qed.

Lemma health_gpu_line_on_linux_cpu :
  get_health demo_globals
  = Body 200
      {| status := "demo_mode";
         model := "microsoft/DialoGPT-small";
         gpu_memory_used := Some (of_string "CPU only") |}.
Proof.
  apply (health_gpu_line_by_host Config.linux_cpu_host 0 demo_globals
           MockEngine).
  - intros i _. discriminate.
  - reflexivity.
  - reflexivity.
Defined.

End LifespanFacts.

(* ===================================================================== *)
(** * app_simple.py: the demo handler *)
(* ===================================================================== *)

Module SimpleFacts.

Import App AppSimple.
Local Open Scope string_scope.
Local Open Scope list_scope.
Local Open Scope Z_scope.

Lemma first_user_content_skips (skipped rest : list ChatMessage) :
  Forall (fun m => eqb (role m) "user" = false) skipped ->
  first_user_content (skipped ++ rest) = first_user_content rest.
Proof.
  induction 1 as [|m skipped Hm _ IH]; [reflexivity|].
  cbn [app first_user_content]. now rewrite Hm.
Qed.

Lemma last_user_content (before after : list ChatMessage) (m : ChatMessage) :
  eqb (role m) "user" = true ->
  Forall (fun x => eqb (role x) "user" = false) after ->
  first_user_content (rev (before ++ m :: after)) = content m.
Proof.
  intros Hm Hafter.
  rewrite rev_app_distr. cbn [rev]. rewrite <- app_assoc.
  rewrite first_user_content_skips by now apply Forall_rev.
  cbn [app first_user_content]. now rewrite Hm.
Qed.

(** The demo handler answers from the last message of role "user" alone:
    the messages before it, and the messages of other roles after it, do
    not change the response. *)
Theorem simple_answer_uses_last_user_message
  (before after : list ChatMessage) (m : ChatMessage)
  (mt : option Z) (t p : option float) (draw : Draw) (now : Z) :
  eqb (role m) "user" = true ->
  Forall (fun x => eqb (role x) "user" = false) after ->
  chat_completions
    {| messages := before ++ m :: after; max_tokens := mt;
       temperature := t; top_p := p |} draw now
  = chat_completions
      {| messages := [m]; max_tokens := mt; temperature := t; top_p := p |}
      draw now.
Proof.
  intros Hm Hafter. unfold chat_completions. cbn [messages].
  rewrite (last_user_content before after m Hm Hafter).
  change [m] with ([] ++ m :: []).
  rewrite (last_user_content [] [] m Hm (Forall_nil _)).
  reflexivity.
Qed.

Lemma simple_answer_on_two_turns :
  chat_completions
    {| messages :=
         [ {| role := "user"; content := "first question" |};
           {| role := "assistant"; content := "an answer" |} ]
         ++ {| role := "user"; content := "and a second one" |}
            :: [ {| role := "system"; content := "be brief" |} ];
       max_tokens := default_max_tokens;
       temperature := default_temperature; top_p := default_top_p |}
    Second 1700000000
  = chat_completions
      {| messages := [ {| role := "user"; content := "and a second one" |} ];
         max_tokens := default_max_tokens;
         temperature := default_temperature; top_p := default_top_p |}
      Second 1700000000.
Proof.
  apply (simple_answer_uses_last_user_message
           [ {| role := "user"; content := "first question" |};
             {| role := "assistant"; content := "an answer" |} ]
           [ {| role := "system"; content := "be brief" |} ]
           {| role := "user"; content := "and a second one" |}).
  - reflexivity.
  - repeat constructor.
Defined.

(** In every response of the demo handler the total is the sum of the two
    counts, whether or not there is a user message; the prompt tokens are
    the words of the last user message (0 without one) and the completion
    tokens the words of the returned content. *)
Theorem simple_usage_adds_up (request : ChatRequest) (draw : Draw) (now : Z) :
  let response := chat_completions request draw now in
  total_tokens (usage response)
  = prompt_tokens (usage response) + completion_tokens (usage response)
  /\ prompt_tokens (usage response)
     = Z.of_nat (word_count (first_user_content (rev (messages request))))
  /\ exists content,
       map (fun c => message_content (message c)) (choices response)
       = [content]
       /\ completion_tokens (usage response) = Z.of_nat (word_count content).
Proof.
  cbv zeta. unfold chat_completions.
  cbn [usage total_tokens prompt_tokens completion_tokens choices map
       message message_content].
  unfold len. rewrite !TextFacts.split_length.
  destruct (first_user_content (rev (messages request))) as [|c s] eqn:E.
  - cbn [truthy]. repeat split. now eexists.
  - cbn [truthy]. repeat split. now eexists.
Qed.

Lemma random_choice_quotes (draw : Draw) (user_message : str) :
  exists before after,
    random_choice draw (demo_responses user_message)
    = before ++ (of_string "'" ++ user_message ++ of_string "'") ++ after.
Proof.
  destruct draw; unfold random_choice, demo_responses; cbn [nth].
  - exists (of_string "Hello! You said: "),
      (of_string ". This is a demo response from the vLLM PoC server.").
    rewrite <- !app_assoc. reflexivity.
  - exists (of_string "I received your message: "),
      (of_string ". In a real deployment, this would be processed by vLLM.").
    rewrite <- !app_assoc. reflexivity.
  - exists (of_string "Demo mode: Your input was "),
      (of_string ". The actual vLLM would generate a more sophisticated response.").
    rewrite <- !app_assoc. reflexivity.
Qed.

(** Whichever template is drawn, the one choice of the demo response is
    an assistant message that quotes the last user message between
    apostrophes, and the id is "demo-" followed by the time in seconds. *)
Theorem simple_answer_quotes_the_message (request : ChatRequest)
  (draw : Draw) (now : Z) :
  let response := chat_completions request draw now in
  id response = of_string "demo-" ++ of_Z now
  /\ exists content,
       choices response
       = [ {| index := 0;
              message := {| message_role := "assistant";
                            message_content := content |};
              finish_reason := "stop" |} ]
       /\ occurs (of_string "'"
                  ++ first_user_content (rev (messages request))
                  ++ of_string "'")
                 content.
Proof.
  cbv zeta. unfold chat_completions. cbn [id choices].
  split; [reflexivity|]. eexists. split; [reflexivity|].
  unfold occurs. apply random_choice_quotes.
Qed.

End SimpleFacts.

(* ===================================================================== *)
(** * scripts/setup_platform.py *)
(* ===================================================================== *)

Module SetupFacts.

Import Config SetupPlatform.
Local Open Scope string_scope.
Local Open Scope list_scope.

(** What one setup command runs. *)
Lemma setup_command_runs (m : Machine) (cm : ConfigManager) (command : str)
  (ran : list str) :
  setup_command m cm command ran
  = (Done tt,
     ran ++ (if startswith command "brew" && startswith (platform cm) "macos"
             then if (shell m (length ran) "which brew" =? 0)%Z
                  then [of_string "which brew"; command]
                  else [of_string "which brew"]
             else [command])).
Proof.
  unfold setup_command, run_command. cbn [andb].
  destruct (startswith command "brew"); [|reflexivity].
  destruct (startswith (platform cm) "macos"); [|reflexivity].
  cbn [andb].
  destruct (shell m (length ran) "which brew" =? 0)%Z; cbn [negb].
  - now rewrite <- app_assoc.
  - reflexivity.
Qed.

Lemma setup_commands_run (m : Machine) (cm : ConfigManager)
  (commands : list str) (ran : list str) :
  exists new,
    setup_commands m cm commands ran = (Done tt, ran ++ new)
    /\ Forall (fun c => c = of_string "which brew" \/ In c commands) new
    /\ (forall c, In c commands -> startswith c "brew" = false -> In c new).
Proof.
  revert ran; induction commands as [|command rest IH]; intros ran.
  - exists []. cbn [setup_commands]. rewrite app_nil_r.
    split; [reflexivity|]. split; [constructor|intros c []].
  - cbn [setup_commands]. rewrite setup_command_runs.
    set (first :=
           if startswith command "brew" && startswith (platform cm) "macos"
           then if (shell m (length ran) "which brew" =? 0)%Z
                then [of_string "which brew"; command]
                else [of_string "which brew"]
           else [command]).
    destruct (IH (ran ++ first)) as (new & E & Hall & Hrun).
    exists (first ++ new). rewrite E, <- app_assoc.
    split; [reflexivity|]. split.
    + apply Forall_app. split.
      * subst first.
        destruct (startswith command "brew" && startswith (platform cm) "macos");
          [destruct (shell m (length ran) "which brew" =? 0)%Z|];
          repeat (apply Forall_cons || apply Forall_nil);
          try (left; reflexivity); right; left; reflexivity.
      * eapply Forall_impl; [|exact Hall].
        intros c [Hc|Hc]; [now left|right; now right].
    + intros c [<-|Hc] Hbrew.
      * apply in_or_app. left. subst first. rewrite Hbrew. now left.
      * apply in_or_app. right. now apply Hrun.
Qed.

(** The platform-specific setup never exits the script, whatever the
    commands return. It adds to the commands run only "which brew" and
    entries of the record's [additional_setup], and it runs every entry
    that does not start with "brew". *)
Theorem setup_never_exits (m : Machine) (cm : ConfigManager)
  (ran : list str) :
  exists new,
    setup_platform_specific m cm ran = (Done tt, ran ++ new)
    /\ Forall (fun c => c = of_string "which brew"
                        \/ In c (additional_setup (config cm))) new
    /\ (forall c, In c (additional_setup (config cm)) ->
                  startswith c "brew" = false -> In c new).
Proof.
  unfold setup_platform_specific.
  destruct (setup_commands_run m cm (additional_setup (config cm)) ran)
    as (new & Hdone & Honly & Hrun).
  exists new. split; [exact Hdone|]. split; [exact Honly|exact Hrun].
Qed.

Lemma setup_commands_without_brew (m : Machine) (cm : ConfigManager)
  (commands : list str) (ran : list str) :
  startswith (platform cm) "macos" = true ->
  (forall i, shell m i "which brew" <> 0%Z) ->
  setup_commands m cm commands ran
  = (Done tt,
     ran ++ flat_map (fun c => if startswith c "brew"
                               then [of_string "which brew"] else [c])
                     commands).
Proof.
  intros Hmac Hbrew. revert ran.
  induction commands as [|command rest IH]; intros ran.
  - cbn [setup_commands flat_map]. now rewrite app_nil_r.
  - cbn [setup_commands flat_map]. rewrite setup_command_runs, Hmac.
    rewrite andb_true_r.
    specialize (Hbrew (length ran)). apply Z.eqb_neq in Hbrew. rewrite Hbrew.
    rewrite IH. rewrite <- app_assoc.
    destruct (startswith command "brew"); reflexivity.
Qed.

(** On a macOS platform without Homebrew every setup entry that starts
    with "brew" is replaced by the "which brew" check that fails, and the
    other entries are run as listed. *)
Theorem setup_skips_brew_without_homebrew (m : Machine) (cm : ConfigManager)
  (ran : list str) :
  startswith (platform cm) "macos" = true ->
  (forall i, shell m i "which brew" <> 0%Z) ->
  setup_platform_specific m cm ran
  = (Done tt,
     ran ++ flat_map (fun c => if startswith c "brew"
                               then [of_string "which brew"] else [c])
                     (additional_setup (config cm))).
Proof.
  intros Hmac Hbrew. unfold setup_platform_specific.
  now apply setup_commands_without_brew.
Qed.

Lemma setup_on_mac_without_brew :
  setup_platform_specific mac_without_brew
    {| platform := "macos_apple_silicon";
       config := macos_apple_silicon_config |} []
  = (Done tt,
     [] ++ flat_map (fun c => if startswith c "brew"
                              then [of_string "which brew"] else [c])
                    (additional_setup macos_apple_silicon_config)).
Proof.
  apply (setup_skips_brew_without_homebrew mac_without_brew
           {| platform := "macos_apple_silicon";
              config := macos_apple_silicon_config |} []).
  - reflexivity.
  - intros i. discriminate.
Defined.

(** ** Installing the requirements *)

(** The file installed from: the record's requirements file, or
    requirements-simple.txt where that file does not exist. *)
Lemma install_requirements_runs (m : Machine) (cm : ConfigManager)
  (ran : list str) :
  let requirements :=
    if path_exists m (requirements_file (config cm))
    then requirements_file (config cm)
    else of_string "requirements-simple.txt" in
  let install_cmd :=
    activate_cmd m
    ++ of_string " && pip install --upgrade pip && pip install -r "
    ++ requirements in
  let basic_cmd :=
    activate_cmd m ++ of_string " && pip install fastapi uvicorn pydantic" in
  let vllm_cmd :=
    activate_cmd m
    ++ of_string " && pip install vllm --no-build-isolation || pip install vllm --no-deps" in
  install_requirements m cm ran
  = if (shell m (length ran) install_cmd =? 0)%Z
    then (Done tt, ran ++ [install_cmd])
    else if (shell m (S (length ran)) basic_cmd =? 0)%Z
    then (Done tt,
          ran ++ [install_cmd; basic_cmd]
          ++ (if startswith (platform cm) "macos" then [vllm_cmd] else []))
    else (SystemExit 1, ran ++ [install_cmd; basic_cmd]).
Proof.
  cbv zeta. unfold install_requirements, run_command. cbn [andb].
  destruct (path_exists m (requirements_file (config cm))); cbn [negb];
    match goal with
    | |- context [shell m (length ran) ?c] =>
        destruct (shell m (length ran) c =? 0)%Z; cbn [negb]
    end;
    try reflexivity;
    rewrite length_app; cbn [length]; rewrite Nat.add_1_r;
    match goal with
    | |- context [shell m (S (length ran)) ?c] =>
        destruct (shell m (S (length ran)) c =? 0)%Z; cbn [negb]
    end;
    rewrite <- ?app_assoc; try reflexivity;
    destruct (startswith (platform cm) "macos");
    rewrite <- ?app_assoc; reflexivity.
Qed.

(** Installing the requirements exits the script, with status 1 and
    after two commands, exactly when the installation from the
    requirements file and the fallback installation of the basic packages
    both fail; a failure of the vLLM retry on macOS is ignored. *)
Theorem install_exits_iff_both_installs_fail (m : Machine)
  (cm : ConfigManager) (ran : list str) :
  let requirements :=
    if path_exists m (requirements_file (config cm))
    then requirements_file (config cm)
    else of_string "requirements-simple.txt" in
  let install_cmd :=
    activate_cmd m
    ++ of_string " && pip install --upgrade pip && pip install -r "
    ++ requirements in
  let basic_cmd :=
    activate_cmd m ++ of_string " && pip install fastapi uvicorn pydantic" in
  ((exists code ran',
      install_requirements m cm ran = (SystemExit code, ran'))
   <-> shell m (length ran) install_cmd <> 0%Z
       /\ shell m (S (length ran)) basic_cmd <> 0%Z)
  /\ (forall code ran',
        install_requirements m cm ran = (SystemExit code, ran') ->
        code = 1%Z /\ ran' = ran ++ [install_cmd; basic_cmd]).
Proof.
  cbv zeta. rewrite install_requirements_runs. cbv zeta.
  match goal with
  | |- context [(shell m (length ran) ?c =? 0)%Z] =>
      destruct (Z.eqb_spec (shell m (length ran) c) 0) as [H1|H1]
  end.
  - split.
    + split; [intros (code & ran' & E); discriminate|].
      intros [Hfail _]. now elim Hfail.
    + intros code ran' E. discriminate.
  - match goal with
    | |- context [(shell m (S (length ran)) ?c =? 0)%Z] =>
        destruct (Z.eqb_spec (shell m (S (length ran)) c) 0) as [H2|H2]
    end.
    + split.
      * split; [intros (code & ran' & E); discriminate|].
        intros [_ Hfail]. now elim Hfail.
      * intros code ran' E. discriminate.
    + split.
      * split; [now split|]. intros _. eexists. eexists. reflexivity.
      * intros code ran' E. inversion E. now split.
Qed.

End SetupFacts.
